(** * sqs-sdk: queue client, object-store client and composition root

    A shallow embedding of [src/lib/services/queue-service.js]
    ([QueueService]), of the storage service that follows it in the same
    file ([StorageService]) and of the composition root ([Provider]),
    together with the properties the specification states about them.

    The JavaScript is embedded as state-passing functions over a log of the
    calls made to the outside world (the AWS SDK clients, [uuid.v1], timers,
    the event emitter, the console).  A synchronous [throw] is an outcome
    of the run ([Raise]); a promise is represented by the way it settles. *)

From Stdlib Require Import String Ascii ZArith List Bool Lia DecimalString.
Import ListNotations.

Open Scope string_scope.
Open Scope list_scope.

Set Warnings "-register-all".

(* ================================================================== *)
(** ** JavaScript values *)
(* ================================================================== *)

Module JS.

(** The values that flow through the services: primitives, plain object
    literals (property lists, in source order), arrays, [Error] instances
    (with their extra own properties, such as the [code] the AWS SDK adds),
    the built-in functions found on [Object.prototype], and
    [Object.prototype] itself.  Numbers are the integral ones (counts,
    seconds, the receipt handles of the tests). *)
Inductive value : Type :=
| VUndefined
| VNull
| VBool (b : bool)
| VNum (n : Z)
| VStr (s : string)
| VObj (props : list (string * value))
| VArr (items : list value)
| VErr (name message : string) (props : list (string * value))
| VFun (name : string)
| VObjectPrototype.

(** ToBoolean: what [if (x)] and [!x] test. *)
Definition truthy (v : value) : bool :=
  match v with
  | VUndefined | VNull => false
  | VBool b => b
  | VNum n => negb (n =? 0)%Z
  | VStr s => negb (s =? "")
  | VObj _ | VArr _ | VErr _ _ _ | VFun _ | VObjectPrototype => true
  end.

Definition falsy (v : value) : bool := negb (truthy v).

(** [x === 'literal']: strict equality against a string literal holds for
    that very string and for nothing else. *)
Definition strict_eq_str (v : value) (lit : string) : bool :=
  match v with
  | VStr s => s =? lit
  | _ => false
  end.

Definition string_of_Z (n : Z) : string :=
  NilZero.string_of_int (Z.to_int n).

Fixpoint join (sep : string) (parts : list string) : string :=
  match parts with
  | [] => ""
  | [p] => p
  | p :: rest => p ++ sep ++ join sep rest
  end.

(** ToString, as applied by template literals, by [+] with a string
    operand and by computed property keys, for numbers a double holds
    exactly and for objects that do not replace the conversion with
    properties of their own.  [Error.prototype.toString]
    gives [name: message]; a plain object gives ["[object Object]"]; an
    array joins its elements with commas, [null] and [undefined] elements
    printing as nothing; a built-in function prints as V8 prints it. *)
Fixpoint to_string (v : value) : string :=
  match v with
  | VUndefined => "undefined"
  | VNull => "null"
  | VBool true => "true"
  | VBool false => "false"
  | VNum n => string_of_Z n
  | VStr s => s
  | VObj _ => "[object Object]"
  | VArr items =>
      join ","
        ((fix elems (l : list value) : list string :=
            match l with
            | [] => []
            | VUndefined :: l' => "" :: elems l'
            | VNull :: l' => "" :: elems l'
            | x :: l' => to_string x :: elems l'
            end) items)
  | VErr name message _ =>
      if name =? "" then message
      else if message =? "" then name
      else name ++ ": " ++ message
  | VFun name => "function " ++ name ++ "() { [native code] }"
  | VObjectPrototype => "[object Object]"
  end.

(** Own-property lookup in a property list. *)
Fixpoint own (props : list (string * value)) (key : string) : option value :=
  match props with
  | [] => None
  | (k, v) :: rest => if k =? key then Some v else own rest key
  end.

(** What a property read finds on [Object.prototype], the end of every
    prototype chain: every object literal inherits these names. *)
Definition object_prototype_member (key : string) : option value :=
  if key =? "constructor" then Some (VFun "Object")
  else if key =? "__proto__" then Some VObjectPrototype
  else if existsb (String.eqb key)
            ["toString"; "toLocaleString"; "valueOf"; "hasOwnProperty";
             "isPrototypeOf"; "propertyIsEnumerable";
             "__defineGetter__"; "__defineSetter__";
             "__lookupGetter__"; "__lookupSetter__"]
       then Some (VFun key)
  else None.

Definition inherited (key : string) : value :=
  match object_prototype_member key with
  | Some v => v
  | None => VUndefined
  end.

(** A synchronous evaluation either completes normally or throws. *)
Inductive completion (A : Type) : Type :=
| Normal (a : A)
| Throw (e : value).
Arguments Normal {A} a.
Arguments Throw {A} e.

Definition TypeError (message : string) : value := VErr "TypeError" message [].
Definition ReferenceError (message : string) : value :=
  VErr "ReferenceError" message [].
Definition Error (message : string) : value := VErr "Error" message [].

(** [base.key]: reading a property.  On [null] and [undefined] the read
    throws a [TypeError]; otherwise the own properties are searched and
    then the prototype chain.  Of the built-in prototypes only
    [Object.prototype] is modelled: the names the services read from
    messages, errors and responses ([ReceiptHandle], [code], [Messages],
    [Key]) belong to no built-in prototype, and no array element or string
    character is read by index. *)
Definition get (base : value) (key : string) : completion value :=
  match base with
  | VUndefined =>
      Throw (TypeError ("Cannot read property '" ++ key ++ "' of undefined"))
  | VNull =>
      Throw (TypeError ("Cannot read property '" ++ key ++ "' of null"))
  | VObj props =>
      Normal (match own props key with Some v => v | None => inherited key end)
  | VErr name message props =>
      Normal (if key =? "message" then VStr message
              else match own props key with
                   | Some v => v
                   | None => if key =? "name" then VStr name else inherited key
                   end)
  | VArr items =>
      Normal (if key =? "length" then VNum (Z.of_nat (length items))
              else inherited key)
  | VStr s =>
      Normal (if key =? "length" then VNum (Z.of_nat (String.length s))
              else inherited key)
  | VBool _ | VNum _ | VFun _ | VObjectPrototype => Normal (inherited key)
  end.

(** A parameter with a default value takes it when the argument is
    [undefined] (or missing). *)
Definition default_to (d : value) (arg : value) : value :=
  match arg with
  | VUndefined => d
  | _ => arg
  end.

(** [a + b] where [b] is a string: string concatenation of the operands'
    string forms. *)
Definition plus_string (a : value) (b : string) : value :=
  VStr (to_string a ++ b).

End JS.

Import JS.

(* ================================================================== *)
(** ** The outside world *)
(* ================================================================== *)

(** The calls the services make to their collaborators.  The log is kept
    most recent first. *)
Inductive event : Type :=
| NewSQS (options : value)
| NewS3 (options : value)
| SqsSendMessage (params : value)
| SqsReceiveMessage (params : value)
| SqsDeleteMessage (params : value)
| SqsPurgeQueue
| S3HeadObject (params : value)
| S3PutObject (params : value)
| UuidV1
| SetInterval (delay : Z)
| ClearInterval (handle : option nat)
| Emit (name : string) (payload : value)
| ConsoleLog (args : list value).

Definition log := list event.

Definition is_SqsSendMessage (e : event) : bool :=
  match e with SqsSendMessage _ => true | _ => false end.
Definition is_SqsReceiveMessage (e : event) : bool :=
  match e with SqsReceiveMessage _ => true | _ => false end.
Definition is_SqsDeleteMessage (e : event) : bool :=
  match e with SqsDeleteMessage _ => true | _ => false end.
Definition is_SqsPurgeQueue (e : event) : bool :=
  match e with SqsPurgeQueue => true | _ => false end.
Definition is_S3HeadObject (e : event) : bool :=
  match e with S3HeadObject _ => true | _ => false end.
Definition is_S3PutObject (e : event) : bool :=
  match e with S3PutObject _ => true | _ => false end.
Definition is_UuidV1 (e : event) : bool :=
  match e with UuidV1 => true | _ => false end.
Definition is_SetInterval (e : event) : bool :=
  match e with SetInterval _ => true | _ => false end.
Definition is_network (e : event) : bool :=
  match e with
  | NewSQS _ | NewS3 _ | SqsSendMessage _ | SqsReceiveMessage _
  | SqsDeleteMessage _ | SqsPurgeQueue | S3HeadObject _ | S3PutObject _ => true
  | _ => false
  end.

(** How often an operation has been called so far. *)
Definition calls (op : event -> bool) (tr : log) : nat :=
  length (filter op tr).

(** The events emitted so far, most recent first. *)
Fixpoint emitted (tr : log) : list (string * value) :=
  match tr with
  | [] => []
  | Emit name payload :: tr' => (name, payload) :: emitted tr'
  | _ :: tr' => emitted tr'
  end.

Definition emitted_as (name : string) (tr : log) : list value :=
  map snd (filter (fun e => fst e =? name) (emitted tr)).

(** The collaborators.  Each transport operation answers its [i]-th call
    (counted from 0) for the given parameters with the arguments it passes
    to the Node-style callback: [(err, data)] for the queue, [err] for the
    object store, whose data the services never look at.  [uuid_v1 i] is
    the [i]-th identifier [uuid.v1()] hands out, and [JSON_stringify] is
    the built-in.  The transports are those of the AWS SDK: they call
    back from a later turn of the event loop, so that what a callback
    starts runs on a stack of its own.  The depth of the call stack is
    not part of the embedding. *)
Record World : Type := {
  sqs_sendMessage : nat -> value -> value * value;
  sqs_receiveMessage : nat -> value -> value * value;
  sqs_deleteMessage : nat -> value -> value * value;
  sqs_purgeQueue : nat -> value * value;
  s3_headObject : nat -> value -> value;
  s3_putObject : nat -> value -> value;
  uuid_v1 : nat -> string;
  JSON_stringify : value -> completion value
}.

(* ================================================================== *)
(** ** Effects: synchronous code, promises, async functions *)
(* ================================================================== *)

(** How a piece of code run against the log ends: it returns, it throws,
    or (inside an async function only) it stays suspended at an [await]
    whose promise has not settled. *)
Inductive result (A : Type) : Type :=
| Return (a : A)
| Raise (e : value)
| Suspended.
Arguments Return {A} a.
Arguments Raise {A} e.
Arguments Suspended {A}.

Definition Eff (A : Type) : Type := log -> result A * log.

Definition ret {A} (a : A) : Eff A := fun tr => (Return a, tr).
Definition raise {A} (e : value) : Eff A := fun tr => (Raise e, tr).

Definition bind {A B} (c : Eff A) (k : A -> Eff B) : Eff B :=
  fun tr =>
    match c tr with
    | (Return a, tr') => k a tr'
    | (Raise e, tr') => (Raise e, tr')
    | (Suspended, tr') => (Suspended, tr')
    end.

Declare Scope eff_scope.
Delimit Scope eff_scope with eff.
Notation "x <- c ;; k" := (bind c (fun x => k))
  (at level 61, c at next level, right associativity) : eff_scope.
Notation "' pat <- c ;; k" := (bind c (fun x => match x with pat => k end))
  (at level 61, pat pattern, c at next level, right associativity) : eff_scope.
Notation "c ;; k" := (bind c (fun _ => k))
  (at level 61, right associativity) : eff_scope.
Open Scope eff_scope.

Definition record (e : event) : Eff unit := fun tr => (Return tt, e :: tr).

Definition lift {A} (c : completion A) : Eff A :=
  match c with
  | Normal a => ret a
  | Throw e => raise e
  end.

(** [try { body } catch (err) { handler }] *)
Definition try_catch {A} (body : Eff A) (handler : value -> Eff A) : Eff A :=
  fun tr =>
    match body tr with
    | (Raise e, tr') => handler e tr'
    | other => other
    end.

(** The state of a promise once the transport has answered. *)
Inductive settlement : Type :=
| Pending
| Resolved (v : value)
| Rejected (reason : value).

(** A promise-returning call: it never throws synchronously. *)
Definition Promise : Type := log -> settlement * log.

Definition resolve (v : value) : Eff settlement := ret (Resolved v).
Definition reject (reason : value) : Eff settlement := ret (Rejected reason).

(** [new Promise((resolve, reject) => { body })]: the executor runs at
    once; what it throws rejects the promise. *)
Definition new_Promise (executor : Eff settlement) : Promise :=
  fun tr =>
    match executor tr with
    | (Return s, tr') => (s, tr')
    | (Raise e, tr') => (Rejected e, tr')
    | (Suspended, tr') => (Pending, tr')
    end.

(** [await p] *)
Definition await (p : Promise) : Eff value :=
  fun tr =>
    match p tr with
    | (Resolved v, tr') => (Return v, tr')
    | (Rejected e, tr') => (Raise e, tr')
    | (Pending, tr') => (Suspended, tr')
    end.

(** [async] function: the body's return value resolves the promise, what
    it throws rejects it. *)
Definition async (body : Eff value) : Promise :=
  fun tr =>
    match body tr with
    | (Return v, tr') => (Resolved v, tr')
    | (Raise e, tr') => (Rejected e, tr')
    | (Suspended, tr') => (Pending, tr')
    end.

(** [p.then(onFulfilled)] *)
Definition then_ (p : Promise) (onFulfilled : value -> Eff value) : Promise :=
  fun tr =>
    match p tr with
    | (Resolved v, tr') => async (onFulfilled v) tr'
    | other => other
    end.

(** [p.catch(onRejected)] *)
Definition catch_ (p : Promise) (onRejected : value -> Eff value) : Promise :=
  fun tr =>
    match p tr with
    | (Rejected e, tr') => async (onRejected e) tr'
    | other => other
    end.

(** Calling a promise-returning function is synchronous and cannot
    throw, whatever becomes of the promise. *)
Definition call (p : Promise) : Eff settlement :=
  fun tr => let (s, tr') := p tr in (Return s, tr').

(** [p.then(resolve).catch(reject)] inside an executor: [resolve] is
    called with the value [p] resolves with, [reject] with the reason it
    rejects with, so the new promise settles exactly as [p] does. *)
Definition forward (p : Promise) : Eff settlement := call p.

(* ================================================================== *)
(** ** Node's EventEmitter *)
(* ================================================================== *)

(** A listener is called with the payload and returns or throws. *)
Definition listener : Type := value -> completion value.

(** The emitter the poller hands to its caller, who subscribes to it. *)
Record EventEmitter : Type := {
  listeners : string -> list listener
}.

Definition new_EventEmitter : EventEmitter := {| listeners := fun _ => [] |}.

Fixpoint call_listeners (ls : list listener) (payload : value) : Eff unit :=
  match ls with
  | [] => ret tt
  | l :: rest => _ <- lift (l payload) ;; call_listeners rest payload
  end.

(** What [emit('error', er)] throws when nobody listens for ['error']: the
    payload itself when it is an [Error], else a fresh [Error] around it.
    The text and the properties of that fresh error differ between Node
    versions; the ones here stand for them, and no property stated below
    depends on them. *)
Definition unhandled_error (er : value) : value :=
  match er with
  | VErr _ _ _ => er
  | _ => VErr "Error" ("Unhandled error. (" ++ to_string er ++ ")")
           [("context", er)]
  end.

(** [emitter.emit(name, payload)]: the listeners run synchronously, in
    order, and what one of them throws propagates to the caller of
    [emit]. *)
Definition emit (em : EventEmitter) (name : string) (payload : value)
  : Eff value :=
  record (Emit name payload) ;;
  match listeners em name with
  | [] => if name =? "error" then raise (unhandled_error payload)
          else ret (VBool false)
  | ls => call_listeners ls payload ;; ret (VBool true)
  end.

(* ================================================================== *)
(** ** The services *)
(* ================================================================== *)

Definition ENVIRONMENT_MAP : value :=
  VObj [("kaos", VStr "384553929753"); ("prod", VStr "966972755541")].

Definition mandatory_message : string :=
  "All parameters are mandatory, please provide an appName, slice, environment and queueName".

Definition no_receipt_handle : string :=
  "message input did not contain a receipt handle".

(** [`An error occurred: ${err}`] *)
Definition an_error_occurred (err : value) : value :=
  VStr ("An error occurred: " ++ to_string err).

Record QueueService : Type := {
  url : string;
  poll : option nat
}.

Record StorageService : Type := {
  bucket : value
}.

Record Provider : Type := {
  storageService : StorageService;
  queueService : QueueService
}.

Section Services.

Variable w : World.

(** *** Transport calls: one log entry each, answered by the world *)

Definition sqs_send (params : value) : Eff (value * value) :=
  fun tr => (Return (sqs_sendMessage w (calls is_SqsSendMessage tr) params),
             SqsSendMessage params :: tr).

Definition sqs_receive (params : value) : Eff (value * value) :=
  fun tr => (Return (sqs_receiveMessage w (calls is_SqsReceiveMessage tr) params),
             SqsReceiveMessage params :: tr).

Definition sqs_delete (params : value) : Eff (value * value) :=
  fun tr => (Return (sqs_deleteMessage w (calls is_SqsDeleteMessage tr) params),
             SqsDeleteMessage params :: tr).

Definition sqs_purge : Eff (value * value) :=
  fun tr => (Return (sqs_purgeQueue w (calls is_SqsPurgeQueue tr)),
             SqsPurgeQueue :: tr).

Definition s3_head (params : value) : Eff value :=
  fun tr => (Return (s3_headObject w (calls is_S3HeadObject tr) params),
             S3HeadObject params :: tr).

Definition s3_put (params : value) : Eff value :=
  fun tr => (Return (s3_putObject w (calls is_S3PutObject tr) params),
             S3PutObject params :: tr).

(** [uuid.v1()]: always returns. *)
Definition uuid : log -> string * log :=
  fun tr => (uuid_v1 w (calls is_UuidV1 tr), UuidV1 :: tr).

Definition console_log (args : list value) : Eff unit :=
  record (ConsoleLog args).

(** *** QueueService *)

(** [constructor(appName, slice, environment, queueName)] *)
Definition QueueService_new (appName slice environment queueName : value)
  : Eff QueueService :=
  if falsy appName || falsy slice || falsy environment || falsy queueName
  then raise (Error mandatory_message)
  else
    let uri := (to_string appName ++ "-" ++ to_string slice ++ "-"
                ++ to_string queueName)%string in
    account <- lift (get ENVIRONMENT_MAP (to_string environment)) ;;
    account <- (if falsy account then lift (get ENVIRONMENT_MAP "kaos")
                else ret account) ;;
    let url := ("https://sqs.ap-southeast-2.amazonaws.com/"
                ++ to_string account ++ "/" ++ uri)%string in
    record (NewSQS (VObj [("region", VStr "ap-southeast-2");
                          ("apiVersion", VStr "2012-11-05");
                          ("params", VObj [("QueueUrl", VStr url)])])) ;;
    ret {| url := url; poll := None |}.

(** [sendMessage(message)] *)
Definition sendMessage (message : value) : Promise :=
  new_Promise (
    body <- lift (JSON_stringify w message) ;;
    '(err, data) <- sqs_send (VObj [("MessageBody", body)]) ;;
    if truthy err then reject (an_error_occurred err)
    else resolve data).

(** [receiveMessage(maxNumberOfMessages = 1)] *)
Definition receiveMessage (maxNumberOfMessages : value) : Promise :=
  let maxNumberOfMessages := default_to (VNum 1) maxNumberOfMessages in
  new_Promise (
    '(err, data) <- sqs_receive
                      (VObj [("MaxNumberOfMessages", maxNumberOfMessages);
                             ("AttributeNames", VArr [VStr "All"]);
                             ("WaitTimeSeconds", VNum 10)]) ;;
    if truthy err then reject (an_error_occurred err)
    else resolve data).

(** [deleteMessage(message)] *)
Definition deleteMessage (message : value) : Promise :=
  new_Promise (
    handle <- lift (get message "ReceiptHandle") ;;
    if falsy handle
    then reject (VStr no_receipt_handle)
    else
      handle <- lift (get message "ReceiptHandle") ;;
      let deleteParams := VObj [("ReceiptHandle", handle)] in
      '(err, data) <- sqs_delete deleteParams ;;
      if truthy err then reject (an_error_occurred err)
      else resolve data).

(** [async dequeue()] *)
Definition dequeue : Promise :=
  async (
    data <- await (receiveMessage VUndefined) ;;
    _ <- await (deleteMessage data) ;;
    ret data).

(** [purgeQueue()] *)
Definition purgeQueue : Promise :=
  new_Promise (
    '(err, data) <- sqs_purge ;;
    if truthy err then reject (an_error_occurred err)
    else resolve data).

(** The chain the timer callback of [startPolling] builds on every tick:
    [this.receiveMessage(10).then(...).catch(...)]. *)
Definition poll_chain (emitter : EventEmitter) : Promise :=
  catch_
    (then_ (receiveMessage (VNum 10))
       (fun messages =>
          present <- lift (get messages "Messages") ;;
          (if truthy present
           then _ <- emit emitter "message" messages ;; ret tt
           else ret tt) ;;
          ret VUndefined))
    (fun err =>
       _ <- emit emitter "error" err ;;
       ret VUndefined).

(** The timer callback itself: it builds the chain and drops it. *)
Definition poll_tick (emitter : EventEmitter) : Eff value :=
  _ <- call (poll_chain emitter) ;;
  ret VUndefined.

(** [startPolling(intervalSeconds)]: the number of the installed timer is
    stored in [this.poll]; the fresh emitter is returned.  The argument is
    a whole number of seconds, which leaves out what is not a number and
    fractions; [SetInterval] records the delay handed to [setInterval],
    and [installed_period] tells the period Node makes of it. *)
Definition startPolling (this : QueueService) (intervalSeconds : Z)
  : Eff (EventEmitter * QueueService) :=
  let seconds := Z.max intervalSeconds 20 in
  let interval := (seconds * 1000)%Z in
  let emitter := new_EventEmitter in
  fun tr =>
    let handle := calls is_SetInterval tr in
    (Return (emitter, {| url := url this; poll := Some handle |}),
     SetInterval interval :: tr).

(** [stopPolling()] *)
Definition stopPolling (this : QueueService) : Eff unit :=
  record (ClearInterval (poll this)).

(** *** StorageService *)

(** [constructor(bucketName)] *)
Definition StorageService_new (bucketName : value) : Eff StorageService :=
  record (NewS3 (VObj [("params", VObj [("Bucket", bucketName)]);
                       ("signatureVersion", VStr "v4");
                       ("region", VStr "ap-southeast-2")])) ;;
  ret {| bucket := bucketName |}.

(** [getUniqueKey(prefix)].  The recursion of the source has no bound;
    [fuel] bounds the number of probes looked at, and the promise is
    still [Pending] when they are used up.  The retry is started from the
    callback of [headObject], which the store calls from a later turn of
    the event loop: retries do not nest on the call stack.  (A stub that
    calls back at once nests them, and exhausts the stack after some
    thousand collisions.) *)
Fixpoint getUniqueKey (fuel : nat) (prefix : value) : Promise :=
  match fuel with
  | O => fun tr => (Pending, tr)
  | S fuel' =>
      fun tr =>
        let (id, tr) := uuid tr in
        let key := plus_string prefix id in
        new_Promise (
          err <- s3_head (VObj [("Key", key)]) ;;
          if truthy err then
            code <- lift (get err "code") ;;
            if strict_eq_str code "NotFound"
            then resolve key
            else reject err
          else
            forward (getUniqueKey fuel' prefix)) tr
  end.

(** [putObjectPromise(data)] *)
Definition putObjectPromise (data : value) : Promise :=
  new_Promise (
    err <- s3_put data ;;
    if truthy err then reject err
    else key <- lift (get data "Key") ;; resolve key).

(** [async putAttachment(prefix, attachments)] *)
Definition putAttachment (fuel : nat) (prefix attachments : value) : Promise :=
  async (
    try_catch
      (key <- await (getUniqueKey fuel prefix) ;;
       body <- lift (JSON_stringify w attachments) ;;
       let putData := VObj [("Key", key); ("Body", body)] in
       await (putObjectPromise putData))
      (fun err =>
         console_log [VStr "An error was thrown putting object on S3"; err] ;;
         raise err)).

(** *** Provider *)

(** [new QueueService()] evaluates the identifier [QueueService] in the
    scope of the module, which imports [StorageService] only.  The binding
    is a parameter: [None] when the name is bound nowhere (the
    file as it is), [Some] of the class when it is put in scope. *)
Definition QueueService_class : Type :=
  value -> value -> value -> value -> Eff QueueService.

Definition resolve_QueueService (binding : option QueueService_class)
  : Eff QueueService_class :=
  match binding with
  | Some class => ret class
  | None => raise (ReferenceError "QueueService is not defined")
  end.

(** [constructor(bucketName)] *)
Definition Provider_new (binding : option QueueService_class)
    (bucketName : value) : Eff Provider :=
  storage <- StorageService_new bucketName ;;
  class <- resolve_QueueService binding ;;
  queue <- class VUndefined VUndefined VUndefined VUndefined ;;
  ret {| storageService := storage; queueService := queue |}.

End Services.

(* ================================================================== *)
(** ** Test doubles *)
(* ================================================================== *)

(** Collaborators scripted the way the test suites script their stubs:
    the [i]-th call is answered by the [i]-th entry, later calls by the
    last argument.  They are used for a handful of calls only. *)
Definition scripted {A} (script : list A) (otherwise : A) (i : nat) : A :=
  nth i script otherwise.

(** The text [JSON.stringify] produces for data: strings quoted and
    escaped, whole numbers in digits, arrays and objects with their
    members, a member that is [undefined] or a function left out of an
    object and written [null] in an array; an [Error] shows only the
    properties added to it.  For [undefined] and for a function there is
    no text.  Data with a [toJSON] of their own are not meant. *)
Definition quote : string := String (ascii_of_nat 34) "".
Definition backslash : string := String (ascii_of_nat 92) "".

Definition quoted (text : string) : string := quote ++ text ++ quote.

Definition hex_digit (n : nat) : string :=
  String (nth n (list_ascii_of_string "0123456789abcdef") "0"%char) "".

Definition json_escape_char (c : ascii) : string :=
  let n := nat_of_ascii c in
  if (n =? 34)%nat then backslash ++ quote
  else if (n =? 92)%nat then backslash ++ backslash
  else if (n =? 8)%nat then backslash ++ "b"
  else if (n =? 9)%nat then backslash ++ "t"
  else if (n =? 10)%nat then backslash ++ "n"
  else if (n =? 12)%nat then backslash ++ "f"
  else if (n =? 13)%nat then backslash ++ "r"
  else if (n <? 32)%nat
       then backslash ++ "u00" ++ hex_digit (n / 16) ++ hex_digit (n mod 16)
  else String c "".

Fixpoint json_escape (text : string) : string :=
  match text with
  | EmptyString => ""
  | String c rest => json_escape_char c ++ json_escape rest
  end.

Fixpoint json_text (v : value) : option string :=
  let members :=
    fix members (props : list (string * value)) : list string :=
      match props with
      | [] => []
      | (k, x) :: rest =>
          match json_text x with
          | Some text =>
              (quoted (json_escape k) ++ ":" ++ text)%string :: members rest
          | None => members rest
          end
      end in
  match v with
  | VUndefined | VFun _ => None
  | VNull => Some "null"
  | VBool true => Some "true"
  | VBool false => Some "false"
  | VNum n => Some (string_of_Z n)
  | VStr s => Some (quoted (json_escape s))
  | VArr items =>
      Some ("[" ++ join ","
                     ((fix elements (l : list value) : list string :=
                         match l with
                         | [] => []
                         | x :: l' =>
                             match json_text x with
                             | Some text => text
                             | None => "null"
                             end :: elements l'
                         end) items)
            ++ "]")%string
  | VObj props => Some ("{" ++ join "," (members props) ++ "}")%string
  | VErr _ _ props => Some ("{" ++ join "," (members props) ++ "}")%string
  | VObjectPrototype => Some "{}"
  end.

Definition stringify_stub (v : value) : completion value :=
  Normal (match json_text v with
          | Some text => VStr text
          | None => VUndefined
          end).

Definition stub_world (receive delete : value * value)
    (heads : list value) (put : value) (uuids : list string) : World :=
  {| sqs_sendMessage := fun _ _ => (VBool false, VStr "some_data");
     sqs_receiveMessage := fun _ _ => receive;
     sqs_deleteMessage := fun _ _ => delete;
     sqs_purgeQueue := fun _ => (VBool false, VStr "some_data");
     s3_headObject := fun i _ => scripted heads VNull i;
     s3_putObject := fun _ _ => put;
     uuid_v1 := scripted uuids "some-guid";
     JSON_stringify := stringify_stub |}.

Definition NotFound : value := VObj [("code", VStr "NotFound")].
Definition BadError : value := VObj [("code", VStr "BadError")].

Definition world_collisions : World :=
  stub_world (VBool false, VStr "some_data") (VBool false, VStr "some_data")
    [VNull; VNull; NotFound] VNull
    ["some-guid-x"; "some-guid-y"; "some-guid-z"].

Definition world_bad_probe : World :=
  stub_world (VBool false, VStr "some_data") (VBool false, VStr "some_data")
    [BadError] VNull ["some-guid"].

Definition world_put_ok : World :=
  stub_world (VBool false, VStr "some_data") (VBool false, VStr "some_data")
    [NotFound] VNull ["some-guid"].

Definition world_put_fails : World :=
  stub_world (VBool false, VStr "some_data") (VBool false, VStr "some_data")
    [NotFound] (VStr "exterminate...exterminate") ["some-guid"].

Definition world_dequeue : World :=
  stub_world (VBool false, VObj [("ReceiptHandle", VNum 123)])
    (VBool false, VStr "deleted") [] VNull [].

Definition world_nothing_to_delete : World :=
  stub_world (VBool false, VObj [("ResponseMetadata", VObj [])])
    (VBool false, VStr "deleted") [] VNull [].

Definition world_messages (messages : value) : World :=
  stub_world (VNull, VObj [("Messages", messages)])
    (VBool false, VStr "deleted") [] VNull [].

Definition world_receive_fails : World :=
  stub_world (VStr "ERR", VStr "some_data")
    (VBool false, VStr "deleted") [] VNull [].

(** An emitter whose caller listens to both events without throwing. *)
Definition attentive_emitter : EventEmitter :=
  {| listeners := fun _ => [fun _ => Normal VUndefined] |}.

(** What the claims call a missing identifier. *)
Definition missing (v : value) : Prop :=
  v = VStr "" \/ v = VNull \/ v = VUndefined.

(** The parameters [receiveMessage] passes to the transport. *)
Definition receive_params (maxNumberOfMessages : value) : value :=
  VObj [("MaxNumberOfMessages", maxNumberOfMessages);
        ("AttributeNames", VArr [VStr "All"]);
        ("WaitTimeSeconds", VNum 10)].

Definition kaos_account : string := "384553929753".
Definition prod_account : string := "966972755541".
Definition host : string := "https://sqs.ap-southeast-2.amazonaws.com".

(** The endpoint the constructor's documentation promises. *)
Definition documented_endpoint (appName slice environment queueName : string)
  : string :=
  host ++ "/"
  ++ (if environment =? "prod" then prod_account else kaos_account)
  ++ "/" ++ appName ++ "-" ++ slice ++ "-" ++ queueName.

(** The values whose string form [to_string] gives as JavaScript does:
    whole numbers in the range where a double holds them exactly (far
    below the size at which JavaScript prints an exponent), objects and
    errors that do not shadow the conversion with properties of their own
    ([toString], [valueOf], a prototype; for an error also [name] and
    [message]), arrays of such values, and every other value of the
    embedding. *)
Definition shadows (names : list string) (props : list (string * value))
  : bool :=
  existsb (fun kv => existsb (String.eqb (fst kv)) names) props.

Fixpoint convertible (v : value) : bool :=
  match v with
  | VNum n => (Z.abs n <=? 9007199254740991)%Z
  | VObj props => negb (shadows ["toString"; "valueOf"; "__proto__"] props)
  | VArr items =>
      (fix all (l : list value) : bool :=
         match l with
         | [] => true
         | x :: l' => convertible x && all l'
         end) items
  | VErr _ _ props =>
      negb (shadows ["toString"; "valueOf"; "__proto__"; "name"; "message"]
              props)
  | VUndefined | VNull | VBool _ | VStr _ | VFun _ | VObjectPrototype => true
  end.

(** The period Node gives a timer installed with [setInterval(f, delay)]:
    the delay in milliseconds when it lies between 1 and 2147483647, and
    1 millisecond otherwise. *)
Definition installed_period (delay : Z) : Z :=
  if ((1 <=? delay) && (delay <=? 2147483647))%Z then delay else 1%Z.

(** The timers that are installed and not cleared, read off the log:
    [setInterval] hands out the next handle, [clearInterval] removes the
    handle it is given, and clearing [null] does nothing. *)
Fixpoint active_timers (tr : log) : list nat :=
  match tr with
  | [] => []
  | SetInterval _ :: tr' => calls is_SetInterval tr' :: active_timers tr'
  | ClearInterval (Some handle) :: tr' =>
      remove Nat.eq_dec handle (active_timers tr')
  | _ :: tr' => active_timers tr'
  end.

(** An object store in which every key is taken. *)
Definition world_all_taken : World :=
  stub_world (VBool false, VStr "some_data") (VBool false, VStr "some_data")
    [] VNull [].

Definition world_delete_fails : World :=
  stub_world (VBool false, VObj [("ReceiptHandle", VNum 123)])
    (VStr "ERR", VStr "some_data") [] VNull [].

(** An emitter with three [message] listeners, of which the second
    throws, and an [error] listener that returns. *)
Definition late_throwing_emitter (thrown : value) : EventEmitter :=
  {| listeners := fun name =>
       if name =? "message"
       then [fun _ => Normal VUndefined; fun _ => Throw thrown;
             fun _ => Normal VUndefined]
       else [fun _ => Normal VUndefined] |}.

(** A world whose [JSON.stringify] throws, as it does on a cyclic
    structure. *)
Definition world_unserialisable : World :=
  {| sqs_sendMessage := fun _ _ => (VBool false, VStr "some_data");
     sqs_receiveMessage := fun _ _ => (VBool false, VStr "some_data");
     sqs_deleteMessage := fun _ _ => (VBool false, VStr "some_data");
     sqs_purgeQueue := fun _ => (VBool false, VStr "some_data");
     s3_headObject := fun _ _ => NotFound;
     s3_putObject := fun _ _ => VNull;
     uuid_v1 := fun _ => "some-guid";
     JSON_stringify :=
       fun _ => Throw (TypeError "Converting circular structure to JSON") |}.

Definition world_null_response : World :=
  stub_world (VNull, VNull) (VBool false, VStr "deleted") [] VNull [].

(* ================================================================== *)
(** ** Properties *)
(* ================================================================== *)

Lemma missing_falsy (v : value) : missing v -> falsy v = true.
Proof. intros [-> | [-> | ->]]; reflexivity. Qed.

Lemma truthy_string_nonempty (s : string) : s <> "" -> falsy (VStr s) = false.
Proof.
  intros Hs. unfold falsy; simpl.
  destruct (String.eqb_spec s ""); [contradiction | reflexivity].
Qed.

Lemma call_listeners_log (ls : list listener) (payload : value) (tr : log) :
  (call_listeners ls payload tr = (Return tt, tr))
  \/ (exists e, call_listeners ls payload tr = (Raise e, tr)).
Proof.
  induction ls as [| l rest IH]; simpl.
  - left; reflexivity.
  - unfold bind. destruct (l payload) as [a | e]; simpl.
    + exact IH.
    + right; exists e; reflexivity.
Qed.

Lemma calls_hit (op : event -> bool) (e : event) (tr : log) :
  op e = true -> calls op (e :: tr) = S (calls op tr).
Proof. intros H. unfold calls; simpl. rewrite H. reflexivity. Qed.

Lemma calls_miss (op : event -> bool) (e : event) (tr : log) :
  op e = false -> calls op (e :: tr) = calls op tr.
Proof. intros H. unfold calls; simpl. rewrite H. reflexivity. Qed.

(** Counting the calls of an operation over the entries just logged. *)
Ltac count_calls :=
  repeat first [ rewrite calls_hit by reflexivity
               | rewrite calls_miss by reflexivity ].

(** A truthy value can be read from: the read of [err.code] in the probe
    callback cannot throw. *)
Lemma get_truthy (v : value) (key : string) :
  truthy v = true -> exists x, get v key = Normal x.
Proof.
  destruct v; simpl; intros H; try discriminate H; eexists; reflexivity.
Qed.

(** The cases of the repository's test suites. *)

Example construction_unknown_environment :
  QueueService_new (VStr "appName") (VStr "slice") (VStr "environment")
    (VStr "name") []
  = (Return {| url := "https://sqs.ap-southeast-2.amazonaws.com/384553929753/appName-slice-name";
               poll := None |},
     [NewSQS (VObj [("region", VStr "ap-southeast-2");
                    ("apiVersion", VStr "2012-11-05");
                    ("params",
                     VObj [("QueueUrl",
                            VStr "https://sqs.ap-southeast-2.amazonaws.com/384553929753/appName-slice-name")])])]).
Proof. reflexivity. Qed.

Example construction_kaos :
  fst (QueueService_new (VStr "appName") (VStr "slice") (VStr "kaos")
         (VStr "name") [])
  = Return {| url := "https://sqs.ap-southeast-2.amazonaws.com/384553929753/appName-slice-name";
              poll := None |}.
Proof. reflexivity. Qed.

Example construction_prod :
  fst (QueueService_new (VStr "appName") (VStr "slice") (VStr "prod")
         (VStr "name") [])
  = Return {| url := "https://sqs.ap-southeast-2.amazonaws.com/966972755541/appName-slice-name";
              poll := None |}.
Proof. reflexivity. Qed.

Example construction_without_arguments :
  QueueService_new VUndefined VUndefined VUndefined VUndefined []
  = (Raise (Error mandatory_message), []).
Proof. reflexivity. Qed.

Example delete_by_receipt_handle :
  deleteMessage world_dequeue
    (VObj [("body", VStr "test"); ("ReceiptHandle", VNum 123)]) []
  = (Resolved (VStr "deleted"),
     [SqsDeleteMessage (VObj [("ReceiptHandle", VNum 123)])]).
Proof. reflexivity. Qed.

Example delete_transport_error :
  deleteMessage
    (stub_world (VBool false, VStr "some_data") (VStr "ERR", VStr "some_data")
       [] VNull [])
    (VObj [("ReceiptHandle", VNum 123)]) []
  = (Rejected (VStr "An error occurred: ERR"),
     [SqsDeleteMessage (VObj [("ReceiptHandle", VNum 123)])]).
Proof. reflexivity. Qed.

Example receive_ten :
  receiveMessage world_dequeue (VNum 10) []
  = (Resolved (VObj [("ReceiptHandle", VNum 123)]),
     [SqsReceiveMessage
        (VObj [("MaxNumberOfMessages", VNum 10);
               ("AttributeNames", VArr [VStr "All"]);
               ("WaitTimeSeconds", VNum 10)])]).
Proof. reflexivity. Qed.

Example another_key_when_found :
  fst (getUniqueKey
         (stub_world (VBool false, VStr "some_data")
            (VBool false, VStr "some_data")
            [VNull; NotFound] VNull ["some-guid-x"; "some-guid-y"])
         2 (VStr "prefix") [])
  = Resolved (VStr "prefixsome-guid-y").
Proof. reflexivity. Qed.

Example still_probing :
  fst (getUniqueKey world_collisions 2 (VStr "prefix") []) = Pending.
Proof. reflexivity. Qed.

Example json_text_samples :
  json_text (VObj [("one", VStr "foo"); ("skipped", VUndefined)])
  = Some ("{" ++ quoted "one" ++ ":" ++ quoted "foo" ++ "}")%string
  /\ json_text (VArr [VNum 1; VUndefined; VNull; VBool true])
     = Some "[1,null,null,true]"
  /\ json_text (VStr quote) = Some (quoted (backslash ++ quote)%string)
  /\ json_text (VStr (String (ascii_of_nat 1) "")) = Some (quoted (backslash ++ "u0001")%string)
  /\ json_text VUndefined = None.
Proof. repeat split. Qed.

Example to_string_samples :
  to_string (VNum 123) = "123"
  /\ to_string (VNum (-5)) = "-5"
  /\ to_string (VArr [VNum 1; VNull; VStr "a"]) = "1,,a"
  /\ to_string (TypeError "boom") = "TypeError: boom"
  /\ to_string NotFound = "[object Object]".
Proof. repeat split. Qed.

Section Properties.

Variable w : World.

(** C8: construction throws the configuration error, and the log of
    calls to the outside world is left as it was, as soon as one of the four
    identifiers is the empty string, [null] or [undefined]. *)
Theorem QueueService_new_mandatory
    (appName slice environment queueName : value) (tr : log) :
  missing appName \/ missing slice \/ missing environment \/ missing queueName ->
  QueueService_new appName slice environment queueName tr
  = (Raise (Error mandatory_message), tr).
Proof.
  intros H. unfold QueueService_new.
  assert (Hor : falsy appName || falsy slice || falsy environment
                || falsy queueName = true).
  { destruct H as [H | [H | [H | H]]]; apply missing_falsy in H; rewrite H;
      rewrite ?orb_true_r; reflexivity. }
  rewrite Hor. reflexivity.
Qed.

(** Reading the environment table under a name that [Object.prototype]
    does not define. *)
Lemma ENVIRONMENT_MAP_lookup (environment : string) :
  object_prototype_member environment = None ->
  get ENVIRONMENT_MAP environment
  = Normal (if environment =? "kaos" then VStr kaos_account
            else if environment =? "prod" then VStr prod_account
            else VUndefined).
Proof.
  intros Hproto. unfold ENVIRONMENT_MAP, get, inherited. cbn [own].
  rewrite (String.eqb_sym "kaos" environment),
          (String.eqb_sym "prod" environment), Hproto.
  destruct (environment =? "kaos"); [reflexivity |].
  destruct (environment =? "prod"); reflexivity.
Qed.

(** The endpoint for an environment name that [Object.prototype] does not
    define: the documented one. *)
Lemma QueueService_new_endpoint
    (appName slice environment queueName : string) (tr : log) :
  appName <> "" -> slice <> "" -> environment <> "" -> queueName <> "" ->
  object_prototype_member environment = None ->
  exists sqs_options,
    QueueService_new (VStr appName) (VStr slice) (VStr environment)
      (VStr queueName) tr
    = (Return {| url := documented_endpoint appName slice environment queueName;
                 poll := None |},
       NewSQS sqs_options :: tr)
    /\ get sqs_options "params"
       = Normal (VObj [("QueueUrl",
                        VStr (documented_endpoint appName slice environment
                                queueName))]).
Proof.
  intros Ha Hs He Hq Hproto. unfold QueueService_new.
  rewrite !truthy_string_nonempty by assumption. simpl orb. cbv iota.
  change (to_string (VStr environment)) with environment.
  rewrite (ENVIRONMENT_MAP_lookup _ Hproto).
  unfold documented_endpoint.
  destruct (String.eqb_spec environment "kaos") as [-> | Hk].
  - eexists; split; reflexivity.
  - destruct (String.eqb_spec environment "prod") as [-> | Hp];
      eexists; split; reflexivity.
Qed.

(** C3: for the environment name [constructor] the lookup in the
    environment table finds [Object.prototype.constructor], which is
    truthy, so the staging default is not applied: the endpoint carries the
    text of a built-in function where the documentation promises the
    staging account. *)
Theorem QueueService_new_inherited_environment (tr : log) :
  let endpoint :=
    "https://sqs.ap-southeast-2.amazonaws.com/function Object() { [native code] }/app-slice-queue" in
  QueueService_new (VStr "app") (VStr "slice") (VStr "constructor")
    (VStr "queue") tr
  = (Return {| url := endpoint; poll := None |},
     NewSQS (VObj [("region", VStr "ap-southeast-2");
                   ("apiVersion", VStr "2012-11-05");
                   ("params", VObj [("QueueUrl", VStr endpoint)])]) :: tr)
  /\ documented_endpoint "app" "slice" "constructor" "queue"
     = "https://sqs.ap-southeast-2.amazonaws.com/384553929753/app-slice-queue"
  /\ endpoint <> documented_endpoint "app" "slice" "constructor" "queue".
Proof.
  intros endpoint. split; [reflexivity |]. split; [reflexivity |].
  subst endpoint. vm_compute. discriminate.
Qed.

(** C7: [startPolling] hands [setInterval] the larger of the
    requested seconds and twenty, in milliseconds: for five seconds the
    timer installed has a period of twenty seconds, not five, for thirty
    seconds one of thirty, and for every whole number of seconds whose
    delay Node's timers take as it is (up to 2147483 seconds) the period
    is at least twenty seconds. *)
Theorem startPolling_clamps (this : QueueService) (tr : log) :
  let started := {| url := url this; poll := Some (calls is_SetInterval tr) |} in
  (startPolling this 5 tr
   = (Return (new_EventEmitter, started), SetInterval 20000 :: tr)
   /\ installed_period 20000 = (20 * 1000)%Z
   /\ installed_period 20000 <> (5 * 1000)%Z)
  /\ (startPolling this 30 tr
      = (Return (new_EventEmitter, started), SetInterval 30000 :: tr)
      /\ installed_period 30000 = (30 * 1000)%Z)
  /\ forall intervalSeconds : Z,
       (intervalSeconds <= 2147483)%Z ->
       exists delay,
         startPolling this intervalSeconds tr
         = (Return (new_EventEmitter, started), SetInterval delay :: tr)
         /\ delay = (Z.max intervalSeconds 20 * 1000)%Z
         /\ installed_period delay = delay
         /\ (20 * 1000 <= installed_period delay)%Z.
Proof.
  intros started.
  split; [repeat split; discriminate |].
  split; [repeat split |].
  intros n Hn. exists (Z.max n 20 * 1000)%Z.
  split; [reflexivity |]. split; [reflexivity |].
  assert (Hperiod : installed_period (Z.max n 20 * 1000) = (Z.max n 20 * 1000)%Z).
  { unfold installed_period.
    destruct (Z.leb_spec 1 (Z.max n 20 * 1000)); [| lia].
    destruct (Z.leb_spec (Z.max n 20 * 1000) 2147483647); [reflexivity | lia]. }
  rewrite Hperiod. split; [reflexivity | lia].
Qed.

(** The local validation of [deleteMessage]: nothing is logged. *)
Lemma deleteMessage_validation (message handle : value) (tr : log) :
  get message "ReceiptHandle" = Normal handle ->
  truthy handle = false ->
  deleteMessage w message tr = (Rejected (VStr no_receipt_handle), tr).
Proof.
  intros Hget Hfalsy.
  unfold deleteMessage, new_Promise, bind. rewrite Hget. simpl.
  unfold falsy. rewrite Hfalsy. reflexivity.
Qed.

(** A valid message reaches the transport's delete, with the handle as
    the only parameter. *)
Lemma deleteMessage_transport (message handle : value) (tr : log) :
  get message "ReceiptHandle" = Normal handle ->
  truthy handle = true ->
  deleteMessage w message tr
  = (let (err, data) :=
       sqs_deleteMessage w (calls is_SqsDeleteMessage tr)
         (VObj [("ReceiptHandle", handle)]) in
     if truthy err then Rejected (an_error_occurred err) else Resolved data,
     SqsDeleteMessage (VObj [("ReceiptHandle", handle)]) :: tr).
Proof.
  intros Hget Htruthy.
  unfold deleteMessage, new_Promise, bind, sqs_delete. rewrite Hget. simpl.
  unfold falsy. rewrite Htruthy. simpl.
  destruct (sqs_deleteMessage w (calls is_SqsDeleteMessage tr)
              (VObj [("ReceiptHandle", handle)])) as [err data].
  destruct (truthy err); reflexivity.
Qed.

(** C4: a message whose [ReceiptHandle] reads as a falsy value (absent,
    that is [undefined], included) is rejected with the validation text,
    which no wrapped transport error equals, and the log of calls to the
    transport is unchanged: no delete was issued. *)
Theorem deleteMessage_without_receipt_handle
    (message handle : value) (tr : log) :
  get message "ReceiptHandle" = Normal handle ->
  truthy handle = false ->
  deleteMessage w message tr = (Rejected (VStr no_receipt_handle), tr)
  /\ calls is_SqsDeleteMessage (snd (deleteMessage w message tr))
     = calls is_SqsDeleteMessage tr
  /\ forall err, VStr no_receipt_handle <> an_error_occurred err.
Proof.
  intros Hget Hfalsy.
  pose proof (deleteMessage_validation message handle tr Hget Hfalsy)
    as Hrun.
  split; [exact Hrun |]. split; [rewrite Hrun; reflexivity |].
  intros err. unfold an_error_occurred, no_receipt_handle. simpl. discriminate.
Qed.

(** C10: on [null] and on [undefined] the read of [ReceiptHandle] throws
    inside the executor, so the promise rejects with that [TypeError], not
    with the validation text, and no delete is issued. *)
Theorem deleteMessage_null_or_undefined (tr : log) :
  (exists text,
     deleteMessage w VNull tr = (Rejected (TypeError text), tr)
     /\ get VNull "ReceiptHandle" = Throw (TypeError text))
  /\ (exists text,
        deleteMessage w VUndefined tr = (Rejected (TypeError text), tr)
        /\ get VUndefined "ReceiptHandle" = Throw (TypeError text))
  /\ (forall text, TypeError text <> VStr no_receipt_handle)
  /\ calls is_SqsDeleteMessage (snd (deleteMessage w VNull tr))
     = calls is_SqsDeleteMessage tr
  /\ calls is_SqsDeleteMessage (snd (deleteMessage w VUndefined tr))
     = calls is_SqsDeleteMessage tr.
Proof.
  split; [eexists; split; reflexivity |].
  split; [eexists; split; reflexivity |].
  split; [intros text; discriminate |].
  split; reflexivity.
Qed.

(** C5: [dequeue] calls the transport's receive for one message and
    hands [deleteMessage] the very value the receive resolved with; when
    the delete resolves, [dequeue] resolves with that value; when the value
    carries no receipt handle, the delete's validation rejection is the
    outcome and the transport's delete is not called. *)
Theorem dequeue_receive_then_delete (tr : log) (err data : value) :
  sqs_receiveMessage w (calls is_SqsReceiveMessage tr) (receive_params (VNum 1))
  = (err, data) ->
  truthy err = false ->
  let received := SqsReceiveMessage (receive_params (VNum 1)) :: tr in
  dequeue w tr
  = (match fst (deleteMessage w data received) with
     | Resolved _ => Resolved data
     | other => other
     end,
     snd (deleteMessage w data received))
  /\ (forall handle derr ack,
        get data "ReceiptHandle" = Normal handle ->
        truthy handle = true ->
        sqs_deleteMessage w (calls is_SqsDeleteMessage tr)
          (VObj [("ReceiptHandle", handle)]) = (derr, ack) ->
        truthy derr = false ->
        dequeue w tr
        = (Resolved data,
           SqsDeleteMessage (VObj [("ReceiptHandle", handle)]) :: received))
  /\ (forall handle,
        get data "ReceiptHandle" = Normal handle ->
        truthy handle = false ->
        dequeue w tr = (Rejected (VStr no_receipt_handle), received)).
Proof.
  intros Hreceive Herr received.
  assert (Hawait : await (receiveMessage w VUndefined) tr
                   = (Return data, received)).
  { unfold await, receiveMessage, new_Promise, bind, sqs_receive. simpl.
    fold (receive_params (VNum 1)). rewrite Hreceive, Herr. reflexivity. }
  assert (Hcompose :
    dequeue w tr
    = (match fst (deleteMessage w data received) with
       | Resolved _ => Resolved data
       | other => other
       end,
       snd (deleteMessage w data received))).
  { unfold dequeue, async. unfold bind at 1. rewrite Hawait.
    unfold bind, await.
    destruct (deleteMessage w data received) as [[| v | reason] tr'];
      reflexivity. }
  split; [exact Hcompose |]. split.
  - intros handle derr ack Hget Htruthy Hdelete Hderr.
    rewrite Hcompose, (deleteMessage_transport data handle received Hget Htruthy).
    change (calls is_SqsDeleteMessage received)
      with (calls is_SqsDeleteMessage tr).
    rewrite Hdelete, Hderr. reflexivity.
  - intros handle Hget Hfalsy.
    rewrite Hcompose, (deleteMessage_validation data handle received Hget Hfalsy).
    reflexivity.
Qed.

(** One probe of [getUniqueKey]: a fresh identifier, one [headObject],
    and then the answer decides. *)
Lemma getUniqueKey_step (fuel : nat) (prefix : value) (tr : log) :
  let key := plus_string prefix (uuid_v1 w (calls is_UuidV1 tr)) in
  let err := s3_headObject w (calls is_S3HeadObject tr) (VObj [("Key", key)]) in
  let probed := S3HeadObject (VObj [("Key", key)]) :: UuidV1 :: tr in
  getUniqueKey w (S fuel) prefix tr
  = if truthy err
    then (match get err "code" with
          | Normal code =>
              if strict_eq_str code "NotFound" then Resolved key
              else Rejected err
          | Throw e => Rejected e
          end, probed)
    else getUniqueKey w fuel prefix probed.
Proof.
  intros key err probed. simpl getUniqueKey.
  unfold uuid, new_Promise, bind, s3_head.
  change (calls is_S3HeadObject (UuidV1 :: tr))
    with (calls is_S3HeadObject tr).
  fold key. fold err. fold probed.
  destruct (truthy err).
  - destruct (get err "code") as [code | e]; simpl; [| reflexivity].
    destruct (strict_eq_str code "NotFound"); reflexivity.
  - unfold forward, call.
    destruct (getUniqueKey w fuel prefix probed) as [[| v | reason] tr'];
      reflexivity.
Qed.

(** More fuel does not change a promise that has settled. *)
Lemma getUniqueKey_fuel_mono (fuel extra : nat) (prefix : value) :
  forall (tr tr' : log) (s : settlement),
    getUniqueKey w fuel prefix tr = (s, tr') ->
    s <> Pending ->
    getUniqueKey w (fuel + extra) prefix tr = (s, tr').
Proof.
  induction fuel as [| fuel IH]; intros tr tr' s Hrun Hsettled.
  - simpl in Hrun. inversion Hrun; subst. contradiction.
  - change (S fuel + extra) with (S (fuel + extra)).
    rewrite getUniqueKey_step in Hrun |- *. cbv zeta in Hrun |- *.
    destruct (truthy (s3_headObject w (calls is_S3HeadObject tr)
                (VObj [("Key",
                        plus_string prefix (uuid_v1 w (calls is_UuidV1 tr)))]))).
    + exact Hrun.
    + apply IH; assumption.
Qed.

(** C1: when the probes of the first, second and third candidate key
    answer found, found, not found, [getUniqueKey] resolves with the
    prefix followed by the third identifier after exactly three probes;
    when the first probe answers with a truthy error whose [code] is not
    [NotFound], it rejects with that very error after exactly one probe. *)
Theorem getUniqueKey_probes (prefix : value) (tr : log) (fuel : nat) :
  let key k := plus_string prefix (uuid_v1 w (k + calls is_UuidV1 tr)) in
  let params k := VObj [("Key", key k)] in
  let probe k := s3_headObject w (k + calls is_S3HeadObject tr) (params k) in
  (truthy (probe 0) = false ->
   truthy (probe 1) = false ->
   truthy (probe 2) = true ->
   get (probe 2) "code" = Normal (VStr "NotFound") ->
   getUniqueKey w (3 + fuel) prefix tr
   = (Resolved (key 2),
      S3HeadObject (params 2) :: UuidV1 ::
      S3HeadObject (params 1) :: UuidV1 ::
      S3HeadObject (params 0) :: UuidV1 :: tr)
   /\ calls is_S3HeadObject (snd (getUniqueKey w (3 + fuel) prefix tr))
      = 3 + calls is_S3HeadObject tr)
  /\ (forall code,
        truthy (probe 0) = true ->
        get (probe 0) "code" = Normal code ->
        strict_eq_str code "NotFound" = false ->
        getUniqueKey w (1 + fuel) prefix tr
        = (Rejected (probe 0), S3HeadObject (params 0) :: UuidV1 :: tr)
        /\ calls is_S3HeadObject (snd (getUniqueKey w (1 + fuel) prefix tr))
           = 1 + calls is_S3HeadObject tr).
Proof.
  intros key params probe. split.
  - intros Hfound0 Hfound1 Htruthy2 Hcode2.
    assert (Hrun : getUniqueKey w (3 + fuel) prefix tr
              = (Resolved (key 2),
                 S3HeadObject (params 2) :: UuidV1 ::
                 S3HeadObject (params 1) :: UuidV1 ::
                 S3HeadObject (params 0) :: UuidV1 :: tr)).
    { change (3 + fuel) with (S (S (S fuel))).
      unfold probe, params, key in Hfound0, Hfound1, Htruthy2, Hcode2.
      simpl Nat.add in Hfound0, Hfound1, Htruthy2, Hcode2.
      rewrite getUniqueKey_step. cbv zeta. rewrite Hfound0.
      rewrite getUniqueKey_step. cbv zeta. count_calls. rewrite Hfound1.
      rewrite getUniqueKey_step. cbv zeta. count_calls.
      rewrite Htruthy2, Hcode2. reflexivity. }
    split; [exact Hrun | rewrite Hrun; simpl snd; count_calls; reflexivity].
  - intros code Htruthy Hcode Hother.
    assert (Hrun : getUniqueKey w (1 + fuel) prefix tr
              = (Rejected (probe 0), S3HeadObject (params 0) :: UuidV1 :: tr)).
    { change (1 + fuel) with (S fuel).
      rewrite getUniqueKey_step. cbv zeta.
      unfold probe, params, key in Htruthy, Hcode |- *.
      simpl Nat.add in Htruthy, Hcode |- *.
      rewrite Htruthy, Hcode, Hother. reflexivity. }
    split; [exact Hrun | rewrite Hrun; simpl snd; count_calls; reflexivity].
Qed.

(** [putAttachment], case by case. *)
Lemma putAttachment_run (fuel : nat) (prefix attachments : value) (tr : log) :
  let failed err tr' :=
    (Rejected err,
     ConsoleLog [VStr "An error was thrown putting object on S3"; err] :: tr') in
  putAttachment w fuel prefix attachments tr
  = match getUniqueKey w fuel prefix tr with
    | (Pending, probed) => (Pending, probed)
    | (Rejected reason, probed) => failed reason probed
    | (Resolved key, probed) =>
        match JSON_stringify w attachments with
        | Throw e => failed e probed
        | Normal body =>
            let putData := VObj [("Key", key); ("Body", body)] in
            let err := s3_putObject w (calls is_S3PutObject probed) putData in
            if truthy err then failed err (S3PutObject putData :: probed)
            else (Resolved key, S3PutObject putData :: probed)
        end
    end.
Proof.
  intros failed. unfold putAttachment, async, try_catch, bind, await.
  destruct (getUniqueKey w fuel prefix tr) as [[| key | reason] probed];
    try reflexivity.
  destruct (JSON_stringify w attachments) as [body | e]; [| reflexivity].
  unfold lift, ret, putObjectPromise, new_Promise, bind, s3_put. cbv zeta.
  destruct (truthy (s3_putObject w (calls is_S3PutObject probed)
              (VObj [("Key", key); ("Body", body)]))); reflexivity.
Qed.

(** C6: every key [putAttachment] resolves with is the key
    [getUniqueKey] produced and the key of the write just made, which
    succeeded; and with a key at hand the outcome follows the write: on
    success the promise resolves with that key, on failure it rejects with
    the write's error itself (after logging it) and resolves with
    nothing. *)
Theorem putAttachment_key
    (fuel : nat) (prefix attachments : value) (tr : log) :
  (forall returned tr',
     putAttachment w fuel prefix attachments tr = (Resolved returned, tr') ->
     exists body probed,
       getUniqueKey w fuel prefix tr = (Resolved returned, probed)
       /\ JSON_stringify w attachments = Normal body
       /\ tr' = S3PutObject (VObj [("Key", returned); ("Body", body)]) :: probed
       /\ truthy (s3_putObject w (calls is_S3PutObject probed)
                    (VObj [("Key", returned); ("Body", body)])) = false)
  /\ (forall key body probed,
        getUniqueKey w fuel prefix tr = (Resolved key, probed) ->
        JSON_stringify w attachments = Normal body ->
        let putData := VObj [("Key", key); ("Body", body)] in
        let err := s3_putObject w (calls is_S3PutObject probed) putData in
        get putData "Key" = Normal key
        /\ (truthy err = false ->
            putAttachment w fuel prefix attachments tr
            = (Resolved key, S3PutObject putData :: probed))
        /\ (truthy err = true ->
            putAttachment w fuel prefix attachments tr
            = (Rejected err,
               ConsoleLog [VStr "An error was thrown putting object on S3"; err]
               :: S3PutObject putData :: probed))).
Proof.
  pose proof (putAttachment_run fuel prefix attachments tr) as Hrun.
  cbv zeta in Hrun. split.
  - intros returned tr' Hresolved. rewrite Hrun in Hresolved.
    destruct (getUniqueKey w fuel prefix tr) as [[| key | reason] probed];
      try discriminate Hresolved.
    destruct (JSON_stringify w attachments) as [body | e];
      try discriminate Hresolved.
    destruct (truthy (s3_putObject w (calls is_S3PutObject probed)
                (VObj [("Key", key); ("Body", body)]))) eqn:Herr;
      try discriminate Hresolved.
    inversion Hresolved; subst.
    exists body, probed. repeat split. exact Herr.
  - intros key body probed Hkey Hbody putData err.
    rewrite Hkey, Hbody in Hrun. fold putData in Hrun. fold err in Hrun.
    split; [reflexivity |].
    split; intros H; rewrite Hrun, H; reflexivity.
Qed.

(** [emit] logs the event and returns or throws; it logs nothing else. *)
Lemma emit_log (emitter : EventEmitter) (name : string) (payload : value)
    (tr : log) :
  (exists b, emit emitter name payload tr
             = (Return (VBool b), Emit name payload :: tr))
  \/ (exists e, emit emitter name payload tr
                = (Raise e, Emit name payload :: tr)).
Proof.
  unfold emit, bind, record.
  destruct (listeners emitter name) as [| l rest] eqn:Hls.
  - destruct (name =? "error").
    + right; eexists; reflexivity.
    + left; eexists; reflexivity.
  - destruct (call_listeners_log (l :: rest) payload (Emit name payload :: tr))
      as [H | [e H]]; rewrite H.
    + left; eexists; reflexivity.
    + right; eexists; reflexivity.
Qed.

(** Listeners that return leave [emit] returning. *)
Lemma call_listeners_quiet (ls : list listener) (payload : value) (tr : log) :
  Forall (fun l : listener => exists v, l payload = Normal v) ls ->
  call_listeners ls payload tr = (Return tt, tr).
Proof.
  induction 1 as [| l rest [v Hl] _ IH]; simpl; [reflexivity |].
  unfold bind. rewrite Hl. simpl. exact IH.
Qed.

(** [receiveMessage]: one call to the transport; a truthy [err] rejects
    with the wrapped error, otherwise the data resolves the promise. *)
Lemma receiveMessage_run (maxNumberOfMessages : value) (tr : log) :
  let params := receive_params (default_to (VNum 1) maxNumberOfMessages) in
  receiveMessage w maxNumberOfMessages tr
  = (let (err, data) :=
       sqs_receiveMessage w (calls is_SqsReceiveMessage tr) params in
     if truthy err then Rejected (an_error_occurred err) else Resolved data,
     SqsReceiveMessage params :: tr).
Proof.
  intros params. unfold receiveMessage, new_Promise, bind, sqs_receive.
  fold (receive_params (default_to (VNum 1) maxNumberOfMessages)).
  fold params.
  destruct (sqs_receiveMessage w (calls is_SqsReceiveMessage tr) params)
    as [err data].
  destruct (truthy err); reflexivity.
Qed.

(** The events of a tick: when the receive resolves with a response
    whose [Messages] is truthy (any array, a non-empty one in particular)
    exactly one [message] event is emitted, carrying the whole response;
    when [Messages] is absent or otherwise falsy nothing is emitted; when
    the receive fails exactly one [error] event is emitted, carrying the
    rejection value of [receiveMessage]. *)
Lemma poll_tick_events
    (emitter : EventEmitter) (tr : log) (err response : value) :
  sqs_receiveMessage w (calls is_SqsReceiveMessage tr)
    (receive_params (VNum 10)) = (err, response) ->
  let polled := SqsReceiveMessage (receive_params (VNum 10)) :: tr in
  let after := snd (poll_tick w emitter tr) in
  (forall messages,
        truthy err = false ->
        get response "Messages" = Normal messages ->
        truthy messages = true ->
        emitted_as "message" after = response :: emitted_as "message" tr
        /\ (Forall (fun l : listener => exists v, l response = Normal v)
              (listeners emitter "message") ->
            after = Emit "message" response :: polled))
  /\ (forall messages,
        truthy err = false ->
        get response "Messages" = Normal messages ->
        truthy messages = false ->
        after = polled)
  /\ (truthy err = true ->
      after = Emit "error" (an_error_occurred err) :: polled
      /\ fst (receiveMessage w (VNum 10) tr)
         = Rejected (an_error_occurred err)).
Proof.
  intros Hreceive polled after.
  assert (Hafter : after = snd (poll_chain w emitter tr)).
  { unfold after, poll_tick, bind, call.
    destruct (poll_chain w emitter tr) as [s tr']; reflexivity. }
  pose proof (receiveMessage_run (VNum 10) tr) as Hrun.
  cbv zeta in Hrun. change (default_to (VNum 1) (VNum 10)) with (VNum 10) in Hrun.
  rewrite Hreceive in Hrun. fold polled in Hrun.
  split; [| split].
  - intros messages Herr Hget Htruthy. rewrite Herr in Hrun.
    assert (Hcases :
      after = Emit "message" response :: polled
      \/ exists e, after = Emit "error" e :: Emit "message" response :: polled).
    { rewrite Hafter. unfold poll_chain, catch_, then_. rewrite Hrun.
      unfold async, bind. rewrite Hget. unfold lift, ret. rewrite Htruthy.
      destruct (emit_log emitter "message" response polled)
        as [[b Hemit] | [e Hemit]]; rewrite Hemit.
      - left; reflexivity.
      - right. exists e.
        destruct (emit_log emitter "error" e (Emit "message" response :: polled))
          as [[b' He] | [e' He]]; rewrite He; reflexivity. }
    split.
    + destruct Hcases as [-> | [e ->]]; reflexivity.
    + intros Hquiet. rewrite Hafter.
      unfold poll_chain, catch_, then_. rewrite Hrun.
      unfold async, bind. rewrite Hget. unfold lift, ret. rewrite Htruthy.
      unfold emit, bind, record.
      destruct (listeners emitter "message") as [| l rest] eqn:Hls;
        [reflexivity |].
      rewrite (call_listeners_quiet _ _ _ Hquiet). reflexivity.
  - intros messages Herr Hget Hfalsy. rewrite Herr in Hrun.
    rewrite Hafter. unfold poll_chain, catch_, then_. rewrite Hrun.
    unfold async, bind. rewrite Hget. unfold lift, ret. rewrite Hfalsy.
    reflexivity.
  - intros Herr. rewrite Herr in Hrun. split; [| rewrite Hrun; reflexivity].
    rewrite Hafter. unfold poll_chain, catch_, then_. rewrite Hrun.
    unfold async, bind.
    destruct (emit_log emitter "error" (an_error_occurred err) polled)
      as [[b He] | [e He]]; rewrite He; reflexivity.
Qed.

(** C9: the composition root builds the storage client and then
    fails, whatever the bucket name: instantiated without arguments the
    queue client throws its configuration error, and in the module as it
    is, where [QueueService] is not imported, evaluating the name already
    throws.  Either way no provider and no queue client come out. *)
Theorem Provider_new_fails (bucketName : value) (tr : log) :
  let constructed :=
    NewS3 (VObj [("params", VObj [("Bucket", bucketName)]);
                 ("signatureVersion", VStr "v4");
                 ("region", VStr "ap-southeast-2")]) :: tr in
  QueueService_new VUndefined VUndefined VUndefined VUndefined constructed
  = (Raise (Error mandatory_message), constructed)
  /\ Provider_new (Some QueueService_new) bucketName tr
     = (Raise (Error mandatory_message), constructed)
  /\ Provider_new None bucketName tr
     = (Raise (ReferenceError "QueueService is not defined"), constructed)
  /\ calls is_network constructed = S (calls is_network tr).
Proof.
  intros constructed. repeat split.
Qed.

End Properties.

(* ================================================================== *)
(** ** The properties at the inputs of the test suites *)
(* ================================================================== *)

(** C2: a receive that resolves with a response whose [Messages] is
    an empty array carries no message, and yet the tick emits a [message]
    event for it, with the whole response: the guard of the tick tests the
    field for truthiness, and an empty array is truthy.  So the tick does
    not keep the rule that an empty or absent field means no event, the
    rule its own comment (we check if messages are zero) sets out. *)
Theorem poll_tick_empty_messages_emits :
  let response := VObj [("Messages", VArr [])] in
  let w := world_messages (VArr []) in
  receiveMessage w (VNum 10) []
  = (Resolved response, [SqsReceiveMessage (receive_params (VNum 10))])
  /\ get response "Messages" = Normal (VArr [])
  /\ emitted (snd (poll_tick w attentive_emitter [])) = [("message", response)]
  /\ ~ (forall (w : World) (emitter : EventEmitter) (tr : log)
           (err response : value),
          sqs_receiveMessage w (calls is_SqsReceiveMessage tr)
            (receive_params (VNum 10)) = (err, response) ->
          truthy err = false ->
          get response "Messages" = Normal (VArr [])
          \/ get response "Messages" = Normal VUndefined ->
          emitted (snd (poll_tick w emitter tr)) = emitted tr).
Proof.
  intros response w.
  split; [reflexivity |]. split; [reflexivity |]. split; [reflexivity |].
  intros claim.
  specialize (claim w attentive_emitter [] VNull response
                eq_refl eq_refl (or_introl eq_refl)).
  vm_compute in claim. discriminate claim.
Qed.

Lemma poll_tick_events_witness :
  let response := VObj [("Messages", VArr [VObj [("ReceiptHandle", VNum 123)]])] in
  let w := world_messages (VArr [VObj [("ReceiptHandle", VNum 123)]]) in
  let polled := [SqsReceiveMessage (receive_params (VNum 10))] in
  sqs_receiveMessage w 0 (receive_params (VNum 10)) = (VNull, response)
  /\ snd (poll_tick w attentive_emitter [])
     = Emit "message" response :: polled
  /\ snd (poll_tick world_receive_fails attentive_emitter [])
     = Emit "error" (VStr "An error occurred: ERR") :: polled.
Proof.
  intros response w polled.
  split; [reflexivity |].
  pose proof (poll_tick_events w attentive_emitter [] VNull response eq_refl)
    as [Hmessage _].
  pose proof (poll_tick_events world_receive_fails attentive_emitter []
                (VStr "ERR") (VStr "some_data") eq_refl)
    as [_ [_ Herror]].
  split.
  - destruct (Hmessage _ eq_refl eq_refl eq_refl) as [_ Hlog].
    apply Hlog. repeat constructor. exists VUndefined; reflexivity.
  - exact (proj1 (Herror eq_refl)).
Defined.

Lemma startPolling_clamps_witness :
  (10 <= 2147483)%Z
  /\ exists delay,
       startPolling {| url := "queue"; poll := None |} 10 []
       = (Return (new_EventEmitter, {| url := "queue"; poll := Some 0 |}),
          [SetInterval delay])
       /\ installed_period delay = 20000%Z.
Proof.
  assert (Hbound : (10 <= 2147483)%Z) by lia.
  split; [exact Hbound |].
  destruct (startPolling_clamps {| url := "queue"; poll := None |} [])
    as [_ [_ Hgeneral]].
  destruct (Hgeneral 10%Z Hbound) as [delay [Hrun [Hdelay [Hperiod _]]]].
  exists delay. split; [exact Hrun |]. rewrite Hperiod, Hdelay. reflexivity.
Defined.

Lemma QueueService_new_mandatory_witness :
  missing VNull
  /\ QueueService_new (VStr "appName") (VStr "slice") (VStr "environment")
       VNull []
     = (Raise (Error mandatory_message), []).
Proof.
  assert (H : missing VNull) by (right; left; reflexivity).
  split; [exact H |].
  apply QueueService_new_mandatory. right; right; right; exact H.
Defined.

Lemma deleteMessage_without_receipt_handle_witness :
  get (VStr "test") "ReceiptHandle" = Normal VUndefined
  /\ truthy VUndefined = false
  /\ deleteMessage world_dequeue (VStr "test") []
     = (Rejected (VStr no_receipt_handle), []).
Proof.
  split; [reflexivity |]. split; [reflexivity |].
  apply (deleteMessage_without_receipt_handle world_dequeue (VStr "test")
           VUndefined []); reflexivity.
Defined.

Lemma dequeue_receive_then_delete_witness :
  let message := VObj [("ReceiptHandle", VNum 123)] in
  let received := [SqsReceiveMessage (receive_params (VNum 1))] in
  sqs_receiveMessage world_dequeue 0 (receive_params (VNum 1))
  = (VBool false, message)
  /\ dequeue world_dequeue []
     = (Resolved message,
        SqsDeleteMessage (VObj [("ReceiptHandle", VNum 123)]) :: received)
  /\ dequeue world_nothing_to_delete []
     = (Rejected (VStr no_receipt_handle), received).
Proof.
  intros message received. split; [reflexivity |]. split.
  - destruct (dequeue_receive_then_delete world_dequeue [] (VBool false)
                message eq_refl eq_refl) as [_ [Hdeleted _]].
    exact (Hdeleted (VNum 123) (VBool false) (VStr "deleted")
             eq_refl eq_refl eq_refl eq_refl).
  - destruct (dequeue_receive_then_delete world_nothing_to_delete []
                (VBool false) (VObj [("ResponseMetadata", VObj [])])
                eq_refl eq_refl) as [_ [_ Hinvalid]].
    exact (Hinvalid VUndefined eq_refl eq_refl).
Defined.

Lemma getUniqueKey_probes_witness :
  let probed k := S3HeadObject (VObj [("Key", VStr k)]) in
  getUniqueKey world_collisions 3 (VStr "prefix") []
  = (Resolved (VStr "prefixsome-guid-z"),
     [probed "prefixsome-guid-z"; UuidV1;
      probed "prefixsome-guid-y"; UuidV1;
      probed "prefixsome-guid-x"; UuidV1])
  /\ getUniqueKey world_bad_probe 1 (VStr "prefix") []
     = (Rejected BadError, [probed "prefixsome-guid"; UuidV1]).
Proof.
  intros probed. split.
  - destruct (getUniqueKey_probes world_collisions (VStr "prefix") [] 0)
      as [Hcollisions _].
    exact (proj1 (Hcollisions eq_refl eq_refl eq_refl eq_refl)).
  - destruct (getUniqueKey_probes world_bad_probe (VStr "prefix") [] 0)
      as [_ Hbad].
    exact (proj1 (Hbad (VStr "BadError") eq_refl eq_refl eq_refl)).
Defined.

Lemma putAttachment_key_witness :
  let attachments := VObj [("one", VStr "foo")] in
  let key := VStr "prefixsome-guid" in
  let probed := [S3HeadObject (VObj [("Key", key)]); UuidV1] in
  let text := VStr ("{" ++ quoted "one" ++ ":" ++ quoted "foo" ++ "}") in
  let putData := VObj [("Key", key); ("Body", text)] in
  getUniqueKey world_put_ok 1 (VStr "prefix") [] = (Resolved key, probed)
  /\ putAttachment world_put_ok 1 (VStr "prefix") attachments []
     = (Resolved key, S3PutObject putData :: probed)
  /\ putAttachment world_put_fails 1 (VStr "prefix") attachments []
     = (Rejected (VStr "exterminate...exterminate"),
        ConsoleLog [VStr "An error was thrown putting object on S3";
                    VStr "exterminate...exterminate"]
        :: S3PutObject putData :: probed)
  /\ (exists body written,
        getUniqueKey world_put_ok 1 (VStr "prefix") [] = (Resolved key, written)
        /\ S3PutObject putData :: probed
           = S3PutObject (VObj [("Key", key); ("Body", body)]) :: written).
Proof.
  intros attachments key probed text putData. split; [reflexivity |].
  pose proof (putAttachment_key world_put_ok 1 (VStr "prefix") attachments [])
    as [Hinv Hok].
  pose proof (putAttachment_key world_put_fails 1 (VStr "prefix")
                attachments []) as [_ Hfails].
  split; [| split].
  - destruct (Hok key text probed eq_refl eq_refl)
      as [_ [H _]].
    exact (H eq_refl).
  - destruct (Hfails key text probed eq_refl eq_refl)
      as [_ [_ H]].
    exact (H eq_refl).
  - destruct (Hinv key (S3PutObject putData :: probed) eq_refl)
      as [body [written [Hkey [_ [Hlog _]]]]].
    exists body, written. split; assumption.
Defined.

(* ================================================================== *)
(** ** Further properties of the services *)
(* ================================================================== *)


Section FurtherProperties.

Variable w : World.

(** X1: with any falsy argument (zero and [false] too, not only the
    empty string, [null] and [undefined]) the constructor throws the
    configuration error and constructs nothing; with four truthy
    arguments that convert to strings as [to_string] has it, it returns:
    it constructs one SQS client, bound to the URL it stores, and leaves
    [poll] empty. *)
Theorem QueueService_new_truthy_or_throws
    (appName slice environment queueName : value) (tr : log) :
  (truthy appName && truthy slice && truthy environment && truthy queueName
   = true ->
   convertible appName && convertible slice && convertible environment
   && convertible queueName = true ->
   exists service sqs_options,
     QueueService_new appName slice environment queueName tr
     = (Return service, NewSQS sqs_options :: tr)
     /\ poll service = None
     /\ get sqs_options "params"
        = Normal (VObj [("QueueUrl", VStr (url service))]))
  /\ (truthy appName && truthy slice && truthy environment && truthy queueName
      = false ->
      QueueService_new appName slice environment queueName tr
      = (Raise (Error mandatory_message), tr)).
Proof.
  unfold QueueService_new, falsy. split; intros H.
  - intros _.
    apply andb_prop in H as [H Hq]. apply andb_prop in H as [H He].
    apply andb_prop in H as [Ha Hs]. rewrite Ha, Hs, He, Hq. simpl negb.
    simpl orb. cbv iota.
    unfold ENVIRONMENT_MAP at 1. unfold get at 1. unfold lift at 1.
    unfold bind at 1. unfold ret at 1.
    destruct (negb (truthy _)).
    + eexists; eexists. split; [reflexivity |]. split; reflexivity.
    + eexists; eexists. split; [reflexivity |]. split; reflexivity.
  - destruct (truthy appName); [| reflexivity].
    destruct (truthy slice); [| reflexivity].
    destruct (truthy environment); [| reflexivity].
    destruct (truthy queueName); [discriminate H | reflexivity].
Qed.

(** X2: for truthy arguments that convert to strings as [to_string]
    has it, the account is chosen by the string form of the environment:
    when [Object.prototype] has no member of that name, the URL is the
    host, the production account for [prod] and the staging account for
    everything else, and the string forms of application, slice and
    queue name joined by dashes. *)
Theorem QueueService_new_account_selection
    (appName slice environment queueName : value) (tr : log) :
  truthy appName = true -> truthy slice = true ->
  truthy environment = true -> truthy queueName = true ->
  convertible appName = true -> convertible slice = true ->
  convertible environment = true -> convertible queueName = true ->
  object_prototype_member (to_string environment) = None ->
  fst (QueueService_new appName slice environment queueName tr)
  = Return {| url := documented_endpoint (to_string appName) (to_string slice)
                       (to_string environment) (to_string queueName);
              poll := None |}.
Proof.
  intros Ha Hs He Hq _ _ _ _ Hproto. unfold QueueService_new, falsy.
  rewrite Ha, Hs, He, Hq. simpl negb. simpl orb. cbv iota.
  rewrite (ENVIRONMENT_MAP_lookup _ Hproto).
  unfold documented_endpoint.
  destruct (String.eqb_spec (to_string environment) "kaos") as [-> | Hk];
    [reflexivity |].
  destruct (to_string environment =? "prod"); reflexivity.
Qed.


(** X4: [receiveMessage] makes exactly one receive call, asking for
    the given maximum (1 when the argument is [undefined], while [null]
    is passed on as it is), all attributes and a wait of ten seconds.  It
    resolves with the transport's data, untouched, exactly when the
    transport's error is falsy; every rejection is the wrapped error, a
    string from which the error's [code] cannot be read. *)
Theorem receiveMessage_settles (maxNumberOfMessages : value) (tr : log) :
  let params := receive_params (default_to (VNum 1) maxNumberOfMessages) in
  let answer := sqs_receiveMessage w (calls is_SqsReceiveMessage tr) params in
  snd (receiveMessage w maxNumberOfMessages tr) = SqsReceiveMessage params :: tr
  /\ (forall v, fst (receiveMessage w maxNumberOfMessages tr) = Resolved v <->
                truthy (fst answer) = false /\ v = snd answer)
  /\ (forall reason,
        fst (receiveMessage w maxNumberOfMessages tr) = Rejected reason <->
        truthy (fst answer) = true /\ reason = an_error_occurred (fst answer))
  /\ fst (receiveMessage w maxNumberOfMessages tr) <> Pending
  /\ (forall err, get (an_error_occurred err) "code" = Normal VUndefined)
  /\ receive_params (default_to (VNum 1) VUndefined) = receive_params (VNum 1)
  /\ receive_params (default_to (VNum 1) VNull) = receive_params VNull.
Proof.
  intros params answer.
  pose proof (receiveMessage_run w maxNumberOfMessages tr) as Hrun.
  cbv zeta in Hrun. fold params in Hrun. fold answer in Hrun.
  rewrite Hrun. destruct answer as [err data]. simpl fst. simpl snd.
  split; [reflexivity |].
  destruct (truthy err).
  - split; [| split; [| split; [discriminate | repeat split]]].
    + intros v; split; [intros H; discriminate H | intros [H _]; discriminate H].
    + intros reason; split.
      * intros H; inversion H; split; reflexivity.
      * intros [_ ->]; reflexivity.
  - split; [| split; [| split; [discriminate | repeat split]]].
    + intros v; split.
      * intros H; inversion H; split; reflexivity.
      * intros [_ ->]; reflexivity.
    + intros reason; split;
        [intros H; discriminate H | intros [H _]; discriminate H].
Qed.

(** X5: [sendMessage] hands the transport the JSON text of the message
    as [MessageBody], in one call; it resolves with the transport's data
    or rejects with the wrapped error.  When [JSON.stringify] throws, the
    promise rejects with what was thrown and the transport is not
    called. *)
Theorem sendMessage_settles (message : value) (tr : log) :
  (forall body,
     JSON_stringify w message = Normal body ->
     let params := VObj [("MessageBody", body)] in
     let answer := sqs_sendMessage w (calls is_SqsSendMessage tr) params in
     sendMessage w message tr
     = (if truthy (fst answer) then Rejected (an_error_occurred (fst answer))
        else Resolved (snd answer),
        SqsSendMessage params :: tr))
  /\ (forall thrown,
        JSON_stringify w message = Throw thrown ->
        sendMessage w message tr = (Rejected thrown, tr)).
Proof.
  split.
  - intros body Hbody params answer.
    unfold sendMessage, new_Promise, bind, sqs_send. rewrite Hbody.
    unfold lift, ret. fold params. fold answer.
    destruct answer as [err data]. simpl.
    destruct (truthy err); reflexivity.
  - intros thrown Hthrown.
    unfold sendMessage, new_Promise, bind. rewrite Hthrown. reflexivity.
Qed.

(** X6: [purgeQueue] makes exactly one purge call; a falsy error
    resolves with the transport's data, a truthy one rejects with the
    wrapped error, and nothing else is logged. *)
Theorem purgeQueue_settles (tr : log) :
  let answer := sqs_purgeQueue w (calls is_SqsPurgeQueue tr) in
  purgeQueue w tr
  = (if truthy (fst answer) then Rejected (an_error_occurred (fst answer))
     else Resolved (snd answer),
     SqsPurgeQueue :: tr)
  /\ calls is_SqsPurgeQueue (snd (purgeQueue w tr))
     = S (calls is_SqsPurgeQueue tr)
  /\ calls is_SqsDeleteMessage (snd (purgeQueue w tr))
     = calls is_SqsDeleteMessage tr.
Proof.
  intros answer.
  assert (Hrun : purgeQueue w tr
            = (if truthy (fst answer)
               then Rejected (an_error_occurred (fst answer))
               else Resolved (snd answer),
               SqsPurgeQueue :: tr)).
  { unfold purgeQueue, new_Promise, bind, sqs_purge. fold answer.
    destruct answer as [err data]. simpl. destruct (truthy err); reflexivity. }
  split; [exact Hrun |]. rewrite Hrun. simpl snd. count_calls.
  split; reflexivity.
Qed.

(** [deleteMessage] always settles, with or without a call. *)
Lemma deleteMessage_settles (message : value) (tr : log) :
  (exists handle,
     fst (deleteMessage w message tr) <> Pending
     /\ snd (deleteMessage w message tr)
        = SqsDeleteMessage (VObj [("ReceiptHandle", handle)]) :: tr)
  \/ ((exists reason, fst (deleteMessage w message tr) = Rejected reason)
      /\ snd (deleteMessage w message tr) = tr).
Proof.
  destruct (get message "ReceiptHandle") as [handle | thrown] eqn:Hget.
  - destruct (truthy handle) eqn:Htruthy.
    + left. exists handle.
      rewrite (deleteMessage_transport w message handle tr Hget Htruthy).
      destruct (sqs_deleteMessage w _ _) as [err data]. simpl.
      destruct (truthy err); split; (discriminate || reflexivity).
    + right. rewrite (deleteMessage_validation w message handle tr Hget Htruthy).
      split; [eexists |]; reflexivity.
  - right. unfold deleteMessage, new_Promise, bind. rewrite Hget. simpl.
    split; [eexists |]; reflexivity.
Qed.

(** X7: [deleteMessage] calls the transport exactly when the message's
    [ReceiptHandle] can be read and is truthy, once, and passes it that
    handle and nothing else of the message; in every other case the
    promise is rejected and the log is left as it was. *)
Theorem deleteMessage_calls_transport_iff (message : value) (tr : log) :
  (exists handle,
     get message "ReceiptHandle" = Normal handle
     /\ truthy handle = true
     /\ snd (deleteMessage w message tr)
        = SqsDeleteMessage (VObj [("ReceiptHandle", handle)]) :: tr)
  \/ ((forall handle,
         get message "ReceiptHandle" = Normal handle -> truthy handle = false)
      /\ snd (deleteMessage w message tr) = tr
      /\ exists reason, fst (deleteMessage w message tr) = Rejected reason).
Proof.
  destruct (get message "ReceiptHandle") as [handle | thrown] eqn:Hget.
  - destruct (truthy handle) eqn:Htruthy.
    + left. exists handle. split; [reflexivity |]. split; [exact Htruthy |].
      rewrite (deleteMessage_transport w message handle tr Hget Htruthy).
      reflexivity.
    + right. rewrite (deleteMessage_validation w message handle tr Hget Htruthy).
      split; [| split; [reflexivity | eexists; reflexivity]].
      intros handle' Heq. inversion Heq; subst. exact Htruthy.
  - right. split; [intros handle Heq; discriminate Heq |].
    unfold deleteMessage, new_Promise, bind. rewrite Hget. simpl.
    split; [reflexivity | eexists; reflexivity].
Qed.

(** [dequeue], step by step. *)
Lemma dequeue_run (tr : log) :
  dequeue w tr
  = match receiveMessage w VUndefined tr with
    | (Resolved data, received) =>
        match deleteMessage w data received with
        | (Resolved _, deleted) => (Resolved data, deleted)
        | other => other
        end
    | other => other
    end.
Proof.
  unfold dequeue, async, bind, await.
  destruct (receiveMessage w VUndefined tr) as [[| data | reason] received];
    try reflexivity.
  destruct (deleteMessage w data received) as [[| ack | reason] deleted];
    reflexivity.
Qed.

(** X8: when the receive fails, [dequeue] rejects with the wrapped
    error of the receive and the transport's delete is never called. *)
Theorem dequeue_receive_fails (tr : log) (err data : value) :
  sqs_receiveMessage w (calls is_SqsReceiveMessage tr) (receive_params (VNum 1))
  = (err, data) ->
  truthy err = true ->
  dequeue w tr
  = (Rejected (an_error_occurred err),
     SqsReceiveMessage (receive_params (VNum 1)) :: tr)
  /\ calls is_SqsDeleteMessage (snd (dequeue w tr))
     = calls is_SqsDeleteMessage tr.
Proof.
  intros Hreceive Herr.
  assert (Hrun : dequeue w tr
            = (Rejected (an_error_occurred err),
               SqsReceiveMessage (receive_params (VNum 1)) :: tr)).
  { rewrite dequeue_run, receiveMessage_run. cbv zeta.
    change (default_to (VNum 1) VUndefined) with (VNum 1).
    rewrite Hreceive, Herr. reflexivity. }
  split; [exact Hrun |]. rewrite Hrun. simpl snd. count_calls. reflexivity.
Qed.

(** X9: when the receive succeeds and the transport's delete fails,
    [dequeue] rejects with the wrapped error of the delete: the message
    that was received is not handed to the caller. *)
Theorem dequeue_delete_fails
    (tr : log) (err data handle derr ack : value) :
  sqs_receiveMessage w (calls is_SqsReceiveMessage tr) (receive_params (VNum 1))
  = (err, data) ->
  truthy err = false ->
  get data "ReceiptHandle" = Normal handle ->
  truthy handle = true ->
  sqs_deleteMessage w (calls is_SqsDeleteMessage tr)
    (VObj [("ReceiptHandle", handle)]) = (derr, ack) ->
  truthy derr = true ->
  dequeue w tr
  = (Rejected (an_error_occurred derr),
     SqsDeleteMessage (VObj [("ReceiptHandle", handle)])
     :: SqsReceiveMessage (receive_params (VNum 1)) :: tr).
Proof.
  intros Hreceive Herr Hget Htruthy Hdelete Hderr.
  rewrite dequeue_run, receiveMessage_run. cbv zeta.
  change (default_to (VNum 1) VUndefined) with (VNum 1).
  rewrite Hreceive, Herr.
  rewrite (deleteMessage_transport w data handle _ Hget Htruthy).
  count_calls. rewrite Hdelete, Hderr. reflexivity.
Qed.

(** X10: whatever the transport answers, [dequeue] settles after one
    receive call for a single message followed by at most one delete call,
    and it logs nothing else. *)
Theorem dequeue_log (tr : log) :
  let received := SqsReceiveMessage (receive_params (VNum 1)) :: tr in
  fst (dequeue w tr) <> Pending
  /\ (snd (dequeue w tr) = received
      \/ exists handle,
           snd (dequeue w tr)
           = SqsDeleteMessage (VObj [("ReceiptHandle", handle)]) :: received).
Proof.
  intros received.
  rewrite dequeue_run, receiveMessage_run. cbv zeta.
  change (default_to (VNum 1) VUndefined) with (VNum 1). fold received.
  destruct (sqs_receiveMessage w (calls is_SqsReceiveMessage tr)
              (receive_params (VNum 1))) as [err data].
  destruct (truthy err); [split; [discriminate | left; reflexivity] |].
  destruct (deleteMessage_settles data received)
    as [[handle [Hfst Hsnd]] | [[reason Hfst] Hsnd]].
  - destruct (deleteMessage w data received) as [[| ack | reason] deleted];
      simpl in Hfst, Hsnd; subst deleted.
    + contradiction.
    + split; [discriminate | right; exists handle; reflexivity].
    + split; [discriminate | right; exists handle; reflexivity].
  - destruct (deleteMessage w data received) as [[| ack | reason'] deleted];
      simpl in Hfst, Hsnd; subst deleted; try discriminate Hfst.
    split; [discriminate | left; reflexivity].
Qed.

(** X11: with a store that calls back from a later turn of the event
    loop, as the AWS SDK does: after any number [n] of collisions, a probe answered
    [NotFound] ends the search: the promise resolves with the prefix
    followed by the identifier drawn last, after [n + 1] probes and as
    many identifiers. *)
Theorem getUniqueKey_after_collisions (prefix : value) (n fuel : nat) :
  forall tr : log,
    let key k := plus_string prefix (uuid_v1 w (k + calls is_UuidV1 tr)) in
    let probe k :=
      s3_headObject w (k + calls is_S3HeadObject tr) (VObj [("Key", key k)]) in
    (forall k, k < n -> truthy (probe k) = false) ->
    truthy (probe n) = true ->
    get (probe n) "code" = Normal (VStr "NotFound") ->
    fst (getUniqueKey w (S n + fuel) prefix tr) = Resolved (key n)
    /\ calls is_S3HeadObject (snd (getUniqueKey w (S n + fuel) prefix tr))
       = S n + calls is_S3HeadObject tr
    /\ calls is_UuidV1 (snd (getUniqueKey w (S n + fuel) prefix tr))
       = S n + calls is_UuidV1 tr.
Proof.
  induction n as [| n IH]; intros tr key probe Hfound Htruthy Hcode.
  - change (1 + fuel) with (S fuel). rewrite getUniqueKey_step. cbv zeta.
    unfold probe, key in Htruthy, Hcode. simpl Nat.add in Htruthy, Hcode.
    rewrite Htruthy, Hcode. simpl. count_calls. repeat split.
  - change (S (S n) + fuel) with (S (S n + fuel)).
    rewrite getUniqueKey_step. cbv zeta.
    pose proof (Hfound 0 (Nat.lt_0_succ n)) as H0.
    unfold probe, key in H0. simpl Nat.add in H0. rewrite H0.
    set (probed := S3HeadObject _ :: UuidV1 :: tr).
    assert (Hhead : calls is_S3HeadObject probed = S (calls is_S3HeadObject tr))
      by (unfold probed; count_calls; reflexivity).
    assert (Huuid : calls is_UuidV1 probed = S (calls is_UuidV1 tr))
      by (unfold probed; count_calls; reflexivity).
    specialize (IH probed). cbv zeta in IH. rewrite Hhead, Huuid in IH.
    assert (Hshift : forall k m, k + S m = S k + m) by (intros; lia).
    destruct IH as [Hkey [Hheads Huuids]].
    + intros k Hk. rewrite !Hshift. apply (Hfound (S k)). lia.
    + rewrite !Hshift. exact Htruthy.
    + rewrite !Hshift. exact Hcode.
    + rewrite Hkey, Hheads, Huuids. rewrite !Hshift.
      repeat split; lia.
Qed.

(** X12: a key [getUniqueKey] resolves with is the key it probed last,
    built from the identifier it drew last, and the store answered that
    probe with a truthy error whose [code] is [NotFound]. *)
Theorem getUniqueKey_resolved_was_probed (prefix : value) (fuel : nat) :
  forall (tr tr' : log) (key : value),
    getUniqueKey w fuel prefix tr = (Resolved key, tr') ->
    exists rest,
      tr' = S3HeadObject (VObj [("Key", key)]) :: UuidV1 :: rest
      /\ key = plus_string prefix (uuid_v1 w (calls is_UuidV1 rest))
      /\ truthy (s3_headObject w (calls is_S3HeadObject rest)
                   (VObj [("Key", key)])) = true
      /\ get (s3_headObject w (calls is_S3HeadObject rest)
                (VObj [("Key", key)])) "code" = Normal (VStr "NotFound").
Proof.
  induction fuel as [| fuel IH]; intros tr tr' key Hrun.
  - discriminate Hrun.
  - rewrite getUniqueKey_step in Hrun. cbv zeta in Hrun.
    destruct (truthy (s3_headObject w _ _)) eqn:Htruthy.
    + destruct (get (s3_headObject w _ _) "code") as [code | thrown] eqn:Hcode;
        [| discriminate Hrun].
      destruct (strict_eq_str code "NotFound") eqn:Heq; [| discriminate Hrun].
      inversion Hrun; subst. exists tr.
      split; [reflexivity |]. split; [reflexivity |].
      split; [exact Htruthy |]. rewrite Hcode.
      destruct code; try discriminate Heq. simpl in Heq.
      apply String.eqb_eq in Heq. subst. reflexivity.
    + apply IH in Hrun. exact Hrun.
Qed.

(** X13: with a store that calls back from a later turn of the event
    loop, as the AWS SDK does: a reason [getUniqueKey] rejects with is the error the store
    gave to the probe made last, itself and not a copy: a truthy value
    whose [code] is not [NotFound]. *)
Theorem getUniqueKey_rejected_is_probe_error (prefix : value) (fuel : nat) :
  forall (tr tr' : log) (reason : value),
    getUniqueKey w fuel prefix tr = (Rejected reason, tr') ->
    exists rest key code,
      tr' = S3HeadObject (VObj [("Key", key)]) :: UuidV1 :: rest
      /\ key = plus_string prefix (uuid_v1 w (calls is_UuidV1 rest))
      /\ reason = s3_headObject w (calls is_S3HeadObject rest)
                    (VObj [("Key", key)])
      /\ truthy reason = true
      /\ get reason "code" = Normal code
      /\ code <> VStr "NotFound".
Proof.
  induction fuel as [| fuel IH]; intros tr tr' reason Hrun.
  - discriminate Hrun.
  - rewrite getUniqueKey_step in Hrun. cbv zeta in Hrun.
    destruct (truthy (s3_headObject w _ _)) eqn:Htruthy.
    + destruct (get_truthy _ "code" Htruthy) as [code Hcode].
      rewrite Hcode in Hrun.
      destruct (strict_eq_str code "NotFound") eqn:Heq; [discriminate Hrun |].
      inversion Hrun; subst.
      exists tr, (plus_string prefix (uuid_v1 w (calls is_UuidV1 tr))), code.
      repeat split; try assumption.
      intros ->. discriminate Heq.
    + apply IH in Hrun. exact Hrun.
Qed.

(** X14: with a store that calls back from a later turn of the event
    loop, as the AWS SDK does: in a store that reports every key as taken the search never
    ends: however many probes are looked at, the promise is still pending
    and each of them has been made. *)
Theorem getUniqueKey_never_settles (prefix : value) (fuel : nat) :
  (forall i params, truthy (s3_headObject w i params) = false) ->
  forall tr : log,
    fst (getUniqueKey w fuel prefix tr) = Pending
    /\ calls is_S3HeadObject (snd (getUniqueKey w fuel prefix tr))
       = fuel + calls is_S3HeadObject tr.
Proof.
  intros Htaken. induction fuel as [| fuel IH]; intros tr.
  - split; reflexivity.
  - rewrite getUniqueKey_step. cbv zeta. rewrite Htaken.
    destruct (IH (S3HeadObject
                    (VObj [("Key",
                            plus_string prefix
                              (uuid_v1 w (calls is_UuidV1 tr)))])
                  :: UuidV1 :: tr)) as [Hpending Hcount].
    rewrite Hpending, Hcount. count_calls. split; [reflexivity | lia].
Qed.

(** The search logs identifiers and probes in pairs and nothing else. *)
Lemma getUniqueKey_log (prefix : value) (fuel : nat) :
  forall tr : log,
    exists n,
      n <= fuel
      /\ length (snd (getUniqueKey w fuel prefix tr)) = 2 * n + length tr
      /\ calls is_UuidV1 (snd (getUniqueKey w fuel prefix tr))
         = n + calls is_UuidV1 tr
      /\ calls is_S3HeadObject (snd (getUniqueKey w fuel prefix tr))
         = n + calls is_S3HeadObject tr
      /\ calls is_S3PutObject (snd (getUniqueKey w fuel prefix tr))
         = calls is_S3PutObject tr.
Proof.
  induction fuel as [| fuel IH]; intros tr.
  - exists 0. repeat split. apply Nat.le_refl.
  - rewrite getUniqueKey_step. cbv zeta.
    destruct (truthy (s3_headObject w _ _)).
    + exists 1. simpl snd. count_calls. repeat split. lia.
    + destruct (IH (S3HeadObject
                      (VObj [("Key",
                              plus_string prefix
                                (uuid_v1 w (calls is_UuidV1 tr)))])
                    :: UuidV1 :: tr)) as [n [Hn [Hlen [Hu [Hh Hp]]]]].
      exists (S n). rewrite Hlen, Hu, Hh, Hp. count_calls. simpl length.
      repeat split; lia.
Qed.

(** X15: with a store that calls back from a later turn of the event
    loop, as the AWS SDK does: [getUniqueKey] draws one fresh identifier for every probe it
    makes, logs nothing besides, and never writes to the store. *)
Theorem getUniqueKey_only_probes (prefix : value) (fuel : nat) (tr : log) :
  let tr' := snd (getUniqueKey w fuel prefix tr) in
  calls is_S3PutObject tr' = calls is_S3PutObject tr
  /\ calls is_UuidV1 tr' - calls is_UuidV1 tr
     = calls is_S3HeadObject tr' - calls is_S3HeadObject tr
  /\ length tr' - length tr
     = 2 * (calls is_S3HeadObject tr' - calls is_S3HeadObject tr).
Proof.
  intros tr'. destruct (getUniqueKey_log prefix fuel tr)
    as [n [_ [Hlen [Hu [Hh Hp]]]]].
  fold tr' in Hlen, Hu, Hh, Hp. rewrite Hlen, Hu, Hh, Hp.
  repeat split; lia.
Qed.

(** X16: when no key is obtained, or when [JSON.stringify] throws,
    [putAttachment] rejects with that very reason, logs it to the
    console, and writes nothing to the store. *)
Theorem putAttachment_fails_before_write
    (fuel : nat) (prefix attachments : value) (tr probed : log) :
  let logged reason :=
    ConsoleLog [VStr "An error was thrown putting object on S3"; reason] in
  (forall reason,
     getUniqueKey w fuel prefix tr = (Rejected reason, probed) ->
     putAttachment w fuel prefix attachments tr
     = (Rejected reason, logged reason :: probed))
  /\ (forall key thrown,
        getUniqueKey w fuel prefix tr = (Resolved key, probed) ->
        JSON_stringify w attachments = Throw thrown ->
        putAttachment w fuel prefix attachments tr
        = (Rejected thrown, logged thrown :: probed))
  /\ (forall reason,
        getUniqueKey w fuel prefix tr = (Rejected reason, probed)
        \/ (exists key, getUniqueKey w fuel prefix tr = (Resolved key, probed)
                        /\ JSON_stringify w attachments = Throw reason) ->
        calls is_S3PutObject (snd (putAttachment w fuel prefix attachments tr))
        = calls is_S3PutObject tr).
Proof.
  intros logged.
  pose proof (putAttachment_run w fuel prefix attachments tr) as Hrun.
  cbv zeta in Hrun.
  pose proof (getUniqueKey_log prefix fuel tr) as [n [_ [_ [_ [_ Hput]]]]].
  split; [| split].
  - intros reason Hkey. rewrite Hrun, Hkey. reflexivity.
  - intros key thrown Hkey Hthrown. rewrite Hrun, Hkey, Hthrown. reflexivity.
  - intros reason [Hkey | [key [Hkey Hthrown]]]; rewrite Hkey in Hput;
      simpl in Hput; rewrite Hrun, Hkey; [| rewrite Hthrown]; simpl snd;
      count_calls; exact Hput.
Qed.

(** X17: [putAttachment] writes to the store at most once, and exactly
    once when it resolves; whenever it rejects, the last thing it did was
    to log the reason it rejects with. *)
Theorem putAttachment_writes_once
    (fuel : nat) (prefix attachments : value) (tr : log) :
  let outcome := putAttachment w fuel prefix attachments tr in
  calls is_S3PutObject (snd outcome) <= S (calls is_S3PutObject tr)
  /\ (forall key, fst outcome = Resolved key ->
                  calls is_S3PutObject (snd outcome)
                  = S (calls is_S3PutObject tr))
  /\ (forall reason, fst outcome = Rejected reason ->
        exists rest,
          snd outcome
          = ConsoleLog [VStr "An error was thrown putting object on S3"; reason]
            :: rest).
Proof.
  intros outcome. unfold outcome.
  pose proof (putAttachment_run w fuel prefix attachments tr) as Hrun.
  cbv zeta in Hrun. rewrite Hrun.
  pose proof (getUniqueKey_log prefix fuel tr) as [n [_ [_ [_ [_ Hput]]]]].
  destruct (getUniqueKey w fuel prefix tr) as [[| key | reason] probed];
    simpl in Hput.
  - simpl. rewrite Hput. split; [lia |].
    split; [intros key H; discriminate H | intros reason H; discriminate H].
  - destruct (JSON_stringify w attachments) as [body | thrown].
    + destruct (truthy (s3_putObject w _ _)); simpl; count_calls; rewrite Hput.
      * split; [lia |]. split; [intros k H; discriminate H |].
        intros reason H. inversion H; subst. eexists; reflexivity.
      * split; [lia |]. split; [reflexivity |].
        intros reason H; discriminate H.
    + simpl; count_calls; rewrite Hput. split; [lia |].
      split; [intros k H; discriminate H |].
      intros reason H. inversion H; subst. eexists; reflexivity.
  - simpl; count_calls; rewrite Hput. split; [lia |].
    split; [intros k H; discriminate H |].
    intros r H. inversion H; subst. eexists; reflexivity.
Qed.

(** Handles are handed out in order: every active timer was installed
    by an earlier [setInterval]. *)
Lemma active_timers_bound (tr : log) (handle : nat) :
  In handle (active_timers tr) -> handle < calls is_SetInterval tr.
Proof.
  induction tr as [| e tr IH]; simpl; [contradiction |].
  destruct e as [| | | | | | | | | delay | [cleared |] | |]; count_calls;
    try exact IH.
  - intros [<- | H]; [lia | apply IH in H; lia].
  - intros H. apply in_remove in H as [H _]. exact (IH H).
Qed.

(** X18: [stopPolling] after [startPolling] clears exactly the timer
    that was installed: the timers active before are the timers active
    after.  On a service that never polled, [stopPolling] clears
    nothing. *)
Theorem startPolling_stopPolling
    (this : QueueService) (intervalSeconds : Z) (tr : log) :
  let started := startPolling this intervalSeconds tr in
  let stopped :=
    (polling <- startPolling this intervalSeconds ;;
     stopPolling (snd polling)) tr in
  active_timers (snd started)
  = calls is_SetInterval tr :: active_timers tr
  /\ active_timers (snd stopped) = active_timers tr
  /\ active_timers (snd (stopPolling {| url := url this; poll := None |} tr))
     = active_timers tr.
Proof.
  intros started stopped. split; [reflexivity |]. split; [| reflexivity].
  change (snd stopped)
    with (ClearInterval (Some (calls is_SetInterval tr))
          :: SetInterval (Z.max intervalSeconds 20 * 1000) :: tr).
  change (active_timers (ClearInterval _ :: _ :: tr))
    with (remove Nat.eq_dec (calls is_SetInterval tr)
            (calls is_SetInterval tr :: active_timers tr)).
  rewrite remove_cons.
  apply notin_remove. intros Hin. apply active_timers_bound in Hin. lia.
Qed.

(** X19: [startPolling] called twice keeps only the second handle, so
    a following [stopPolling] clears the second timer and the first stays
    active, with no handle left to clear it. *)
Theorem startPolling_twice_leaks
    (this : QueueService) (first second : Z) (tr : log) :
  let run :=
    (polling <- startPolling this first ;;
     polling' <- startPolling (snd polling) second ;;
     _ <- stopPolling (snd polling') ;;
     ret (snd polling')) tr in
  fst run = Return {| url := url this;
                      poll := Some (S (calls is_SetInterval tr)) |}
  /\ active_timers (snd run) = calls is_SetInterval tr :: active_timers tr
  /\ ~ In (S (calls is_SetInterval tr)) (active_timers (snd run)).
Proof.
  intros run.
  assert (Hrun : run
            = (Return {| url := url this;
                         poll := Some (S (calls is_SetInterval tr)) |},
               ClearInterval (Some (S (calls is_SetInterval tr)))
               :: SetInterval (Z.max second 20 * 1000)
               :: SetInterval (Z.max first 20 * 1000) :: tr))
    by reflexivity.
  assert (Hactive : active_timers (snd run)
                    = calls is_SetInterval tr :: active_timers tr).
  { rewrite Hrun. simpl snd.
    change (active_timers (ClearInterval _ :: _ :: _ :: tr))
      with (remove Nat.eq_dec (S (calls is_SetInterval tr))
              (S (calls is_SetInterval tr)
               :: calls is_SetInterval tr :: active_timers tr)).
    rewrite remove_cons.
    remember (calls is_SetInterval tr) as installed eqn:Hinstalled.
    cbn [remove].
    destruct (Nat.eq_dec (S installed) installed) as [Heq | _]; [lia |].
    f_equal. apply notin_remove. intros Hin.
    apply active_timers_bound in Hin. lia. }
  split; [rewrite Hrun; reflexivity |]. split; [exact Hactive |].
  rewrite Hactive. intros [Heq | Hin]; [lia |].
  apply active_timers_bound in Hin. lia.
Qed.

(** The log of a tick is the log of its chain. *)
Lemma poll_tick_log_chain (emitter : EventEmitter) (tr : log) :
  snd (poll_tick w emitter tr) = snd (poll_chain w emitter tr).
Proof.
  unfold poll_tick, bind, call.
  destruct (poll_chain w emitter tr) as [s tr']; reflexivity.
Qed.

(** The chain of a tick, case by case. *)
Lemma poll_chain_run (emitter : EventEmitter) (tr : log) :
  let params := receive_params (VNum 10) in
  let polled := SqsReceiveMessage params :: tr in
  let on_error reason tr' := async (_ <- emit emitter "error" reason ;;
                                    ret VUndefined) tr' in
  poll_chain w emitter tr
  = let (err, response) :=
      sqs_receiveMessage w (calls is_SqsReceiveMessage tr) params in
    if truthy err then on_error (an_error_occurred err) polled
    else match get response "Messages" with
         | Throw thrown => on_error thrown polled
         | Normal messages =>
             if truthy messages
             then match emit emitter "message" response polled with
                  | (Raise thrown, tr') => on_error thrown tr'
                  | (Return _, tr') => (Resolved VUndefined, tr')
                  | (Suspended, tr') => (Pending, tr')
                  end
             else (Resolved VUndefined, polled)
         end.
Proof.
  intros params polled on_error.
  unfold poll_chain, catch_, then_.
  pose proof (receiveMessage_run w (VNum 10) tr) as Hrun. cbv zeta in Hrun.
  change (default_to (VNum 1) (VNum 10)) with (VNum 10) in Hrun.
  fold params in Hrun. fold polled in Hrun. rewrite Hrun.
  destruct (sqs_receiveMessage w (calls is_SqsReceiveMessage tr) params)
    as [err response].
  destruct (truthy err); [reflexivity |].
  destruct (get response "Messages") as [messages | thrown]; [| reflexivity].
  destruct (truthy messages) eqn:Htruthy;
    [| unfold async, bind, lift, ret; rewrite Htruthy; reflexivity].
  unfold async, bind, lift, ret. rewrite Htruthy. cbv beta.
  destruct (emit emitter "message" response polled) as [[b | thrown |] tr'];
    reflexivity.
Qed.

(** X20: a tick asks the transport once, for up to ten messages, and
    after that it only emits, at most twice; it never deletes a
    message. *)
Theorem poll_tick_only_receives (emitter : EventEmitter) (tr : log) :
  exists events,
    snd (poll_tick w emitter tr)
    = events ++ SqsReceiveMessage (receive_params (VNum 10)) :: tr
    /\ Forall (fun e => exists name payload, e = Emit name payload) events
    /\ length events <= 2
    /\ calls is_SqsDeleteMessage (snd (poll_tick w emitter tr))
       = calls is_SqsDeleteMessage tr.
Proof.
  rewrite poll_tick_log_chain, poll_chain_run. cbv zeta.
  set (polled := SqsReceiveMessage (receive_params (VNum 10)) :: tr).
  assert (Herror : forall reason before,
    exists tr', snd (async (_ <- emit emitter "error" reason ;; ret VUndefined)
                       before) = tr'
                /\ tr' = Emit "error" reason :: before).
  { intros reason before. unfold async, bind.
    destruct (emit_log emitter "error" reason before)
      as [[b He] | [e He]]; rewrite He; eexists; split; reflexivity. }
  assert (Hone : forall reason,
    exists events,
      snd (async (_ <- emit emitter "error" reason ;; ret VUndefined) polled)
      = events ++ polled
      /\ Forall (fun e => exists name payload, e = Emit name payload) events
      /\ length events <= 2
      /\ calls is_SqsDeleteMessage
           (snd (async (_ <- emit emitter "error" reason ;; ret VUndefined)
                   polled))
         = calls is_SqsDeleteMessage tr).
  { intros reason. destruct (Herror reason polled) as [tr' [-> ->]].
    exists [Emit "error" reason]. split; [reflexivity |].
    split; [repeat constructor; eexists; eexists; reflexivity |].
    split; [simpl; lia |]. unfold polled. count_calls. reflexivity. }
  destruct (sqs_receiveMessage w (calls is_SqsReceiveMessage tr)
              (receive_params (VNum 10))) as [err response].
  destruct (truthy err); [apply Hone |].
  destruct (get response "Messages") as [messages | thrown]; [| apply Hone].
  destruct (truthy messages).
  - destruct (emit_log emitter "message" response polled)
      as [[b He] | [e He]]; rewrite He.
    + exists [Emit "message" response]. split; [reflexivity |].
      split; [repeat constructor; eexists; eexists; reflexivity |].
      split; [simpl; lia |]. unfold polled. simpl snd. count_calls.
      reflexivity.
    + destruct (Herror e (Emit "message" response :: polled)) as [tr' [-> ->]].
      exists [Emit "error" e; Emit "message" response].
      split; [reflexivity |].
      split; [repeat constructor; eexists; eexists; reflexivity |].
      split; [simpl; lia |]. unfold polled. count_calls. reflexivity.
  - exists []. split; [reflexivity |]. split; [constructor |].
    split; [simpl; lia |]. unfold polled. simpl snd. count_calls. reflexivity.
Qed.

(** Listeners run in order until one throws. *)
Lemma call_listeners_throws (before after : list listener) (l : listener)
    (payload thrown : value) (tr : log) :
  Forall (fun l' : listener => exists v, l' payload = Normal v) before ->
  l payload = Throw thrown ->
  call_listeners (before ++ l :: after) payload tr = (Raise thrown, tr).
Proof.
  intros Hbefore Hthrows.
  induction Hbefore as [| l' rest [v Hl'] _ IH]; simpl.
  - unfold bind. rewrite Hthrows. reflexivity.
  - unfold bind. rewrite Hl'. simpl. exact IH.
Qed.

(** X21: what any [message] listener throws, after the listeners
    registered before it have returned, does not escape either: it rejects
    the chain's [then] step, so the chain's [catch] emits it as an [error]
    event right after the [message] event. *)
Theorem poll_tick_listener_throws
    (emitter : EventEmitter) (tr : log)
    (err response messages thrown : value) (l : listener)
    (before after : list listener) :
  sqs_receiveMessage w (calls is_SqsReceiveMessage tr)
    (receive_params (VNum 10)) = (err, response) ->
  truthy err = false ->
  get response "Messages" = Normal messages ->
  truthy messages = true ->
  listeners emitter "message" = before ++ l :: after ->
  Forall (fun l' : listener => exists v, l' response = Normal v) before ->
  l response = Throw thrown ->
  poll_tick w emitter tr
  = (Return VUndefined,
     Emit "error" thrown :: Emit "message" response
     :: SqsReceiveMessage (receive_params (VNum 10)) :: tr).
Proof.
  intros Hreceive Herr Hget Htruthy Hls Hbefore Hthrows.
  assert (Hchain : snd (poll_chain w emitter tr)
            = Emit "error" thrown :: Emit "message" response
              :: SqsReceiveMessage (receive_params (VNum 10)) :: tr).
  { rewrite poll_chain_run. cbv zeta.
    rewrite Hreceive, Herr, Hget, Htruthy.
    assert (Hemit : emit emitter "message" response
                      (SqsReceiveMessage (receive_params (VNum 10)) :: tr)
                    = (Raise thrown,
                       Emit "message" response
                       :: SqsReceiveMessage (receive_params (VNum 10)) :: tr)).
    { unfold emit. unfold bind at 1. unfold record.
      destruct (listeners emitter "message") as [| first rest] eqn:Hlist.
      - destruct before; discriminate Hls.
      - unfold bind. rewrite Hls.
        rewrite (call_listeners_throws before after l response thrown _
                   Hbefore Hthrows).
        reflexivity. }
    rewrite Hemit. unfold async, bind.
    destruct (emit_log emitter "error" thrown
                (Emit "message" response
                 :: SqsReceiveMessage (receive_params (VNum 10)) :: tr))
      as [[b He] | [e He]]; rewrite He; reflexivity. }
  unfold poll_tick, bind, call.
  destruct (poll_chain w emitter tr) as [s tr']. simpl in Hchain.
  subst tr'. reflexivity.
Qed.

(** X22: when the receive fails and nobody listens for [error], [emit]
    throws inside the chain's [catch], so the chain, which the timer
    callback has dropped, ends rejected with nothing to handle it; with
    [error] listeners that return, the chain resolves. *)
Theorem poll_chain_unhandled (emitter : EventEmitter) (tr : log)
    (err data : value) :
  sqs_receiveMessage w (calls is_SqsReceiveMessage tr)
    (receive_params (VNum 10)) = (err, data) ->
  truthy err = true ->
  (listeners emitter "error" = [] ->
   exists reason, fst (poll_chain w emitter tr) = Rejected reason)
  /\ (listeners emitter "error" <> [] ->
      Forall (fun l : listener => exists v, l (an_error_occurred err) = Normal v)
        (listeners emitter "error") ->
      fst (poll_chain w emitter tr) = Resolved VUndefined).
Proof.
  intros Hreceive Herr.
  pose proof (poll_chain_run emitter tr) as Hrun. cbv zeta in Hrun.
  rewrite Hreceive, Herr in Hrun.
  split.
  - intros Hnone. rewrite Hrun. unfold async, bind, emit, bind, record.
    rewrite Hnone. eexists. reflexivity.
  - intros Hsome Hquiet. rewrite Hrun. unfold async, bind, emit, bind, record.
    destruct (listeners emitter "error") as [| l rest] eqn:Hls;
      [contradiction |].
    rewrite (call_listeners_quiet _ _ _ Hquiet). reflexivity.
Qed.

(** X23: a receive that resolves with [null] or [undefined] makes the
    read of [Messages] throw inside the chain; the tick turns that
    [TypeError] into an [error] event and emits no [message] event. *)
Theorem poll_tick_null_response (emitter : EventEmitter) (tr : log)
    (err response : value) :
  sqs_receiveMessage w (calls is_SqsReceiveMessage tr)
    (receive_params (VNum 10)) = (err, response) ->
  truthy err = false ->
  response = VNull \/ response = VUndefined ->
  exists text,
    get response "Messages" = Throw (TypeError text)
    /\ snd (poll_tick w emitter tr)
       = Emit "error" (TypeError text)
         :: SqsReceiveMessage (receive_params (VNum 10)) :: tr.
Proof.
  intros Hreceive Herr Hnull.
  rewrite poll_tick_log_chain, poll_chain_run. cbv zeta.
  rewrite Hreceive, Herr.
  destruct Hnull as [-> | ->]; simpl get; eexists; (split; [reflexivity |]);
    unfold async, bind;
    match goal with
    | |- context [emit emitter "error" ?e ?t] =>
        destruct (emit_log emitter "error" e t) as [[b He] | [e' He]];
        rewrite He; reflexivity
    end.
Qed.

End FurtherProperties.

(* ================================================================== *)
(** ** The further properties at concrete inputs *)
(* ================================================================== *)

Lemma QueueService_new_truthy_or_throws_witness :
  (exists service sqs_options,
     QueueService_new (VStr "appName") (VStr "slice") (VStr "kaos")
       (VStr "name") []
     = (Return service, [NewSQS sqs_options])
     /\ poll service = None
     /\ get sqs_options "params" = Normal (VObj [("QueueUrl", VStr (url service))]))
  /\ QueueService_new (VStr "appName") (VNum 0) (VStr "kaos") (VStr "name") []
     = (Raise (Error mandatory_message), []).
Proof.
  split.
  - exact (proj1 (QueueService_new_truthy_or_throws (VStr "appName")
                    (VStr "slice") (VStr "kaos") (VStr "name") [])
             eq_refl eq_refl).
  - exact (proj2 (QueueService_new_truthy_or_throws (VStr "appName")
                    (VNum 0) (VStr "kaos") (VStr "name") []) eq_refl).
Defined.

Lemma QueueService_new_account_selection_witness :
  object_prototype_member (to_string (VArr [VStr "prod"])) = None
  /\ fst (QueueService_new (VStr "appName") (VNum 7) (VArr [VStr "prod"])
            (VStr "name") [])
     = Return {| url := "https://sqs.ap-southeast-2.amazonaws.com/966972755541/appName-7-name";
                 poll := None |}.
Proof.
  split; [reflexivity |].
  exact (QueueService_new_account_selection (VStr "appName") (VNum 7)
           (VArr [VStr "prod"]) (VStr "name") []
           eq_refl eq_refl eq_refl eq_refl eq_refl eq_refl eq_refl eq_refl
           eq_refl).
Defined.


Lemma receiveMessage_settles_witness :
  fst (receiveMessage world_receive_fails VUndefined [])
  = Rejected (VStr "An error occurred: ERR")
  /\ fst (receiveMessage world_dequeue VUndefined [])
     = Resolved (VObj [("ReceiptHandle", VNum 123)]).
Proof.
  destruct (receiveMessage_settles world_receive_fails VUndefined [])
    as [_ [_ [Hrejected _]]].
  destruct (receiveMessage_settles world_dequeue VUndefined [])
    as [_ [Hresolved _]].
  split.
  - apply Hrejected. split; reflexivity.
  - apply Hresolved. split; reflexivity.
Defined.

Lemma sendMessage_settles_witness :
  JSON_stringify world_dequeue (VStr "test") = Normal (VStr (quoted "test"))
  /\ sendMessage world_dequeue (VStr "test") []
     = (Resolved (VStr "some_data"),
        [SqsSendMessage (VObj [("MessageBody", VStr (quoted "test"))])])
  /\ sendMessage world_unserialisable (VStr "test") []
     = (Rejected (TypeError "Converting circular structure to JSON"), []).
Proof.
  split; [reflexivity |]. split.
  - exact (proj1 (sendMessage_settles world_dequeue (VStr "test") [])
             (VStr (quoted "test")) eq_refl).
  - exact (proj2 (sendMessage_settles world_unserialisable (VStr "test") [])
             _ eq_refl).
Defined.

Lemma deleteMessage_calls_transport_iff_witness :
  snd (deleteMessage world_dequeue (VObj [("ReceiptHandle", VNum 123)]) [])
  = [SqsDeleteMessage (VObj [("ReceiptHandle", VNum 123)])]
  /\ snd (deleteMessage world_dequeue (VObj [("ReceiptHandle", VNum 0)]) [])
     = [].
Proof.
  split.
  - destruct (deleteMessage_calls_transport_iff world_dequeue
                (VObj [("ReceiptHandle", VNum 123)]) [])
      as [[handle [Hget [_ Hlog]]] | [Hfalsy _]].
    + inversion Hget; subst. exact Hlog.
    + discriminate (Hfalsy (VNum 123) eq_refl).
  - destruct (deleteMessage_calls_transport_iff world_dequeue
                (VObj [("ReceiptHandle", VNum 0)]) [])
      as [[handle [Hget [Htruthy _]]] | [_ [Hlog _]]].
    + inversion Hget; subst. discriminate Htruthy.
    + exact Hlog.
Defined.

Lemma dequeue_receive_fails_witness :
  sqs_receiveMessage world_receive_fails 0 (receive_params (VNum 1))
  = (VStr "ERR", VStr "some_data")
  /\ dequeue world_receive_fails []
     = (Rejected (VStr "An error occurred: ERR"),
        [SqsReceiveMessage (receive_params (VNum 1))]).
Proof.
  split; [reflexivity |].
  exact (proj1 (dequeue_receive_fails world_receive_fails [] (VStr "ERR")
                  (VStr "some_data") eq_refl eq_refl)).
Defined.

Lemma dequeue_delete_fails_witness :
  sqs_deleteMessage world_delete_fails 0 (VObj [("ReceiptHandle", VNum 123)])
  = (VStr "ERR", VStr "some_data")
  /\ dequeue world_delete_fails []
     = (Rejected (VStr "An error occurred: ERR"),
        [SqsDeleteMessage (VObj [("ReceiptHandle", VNum 123)]);
         SqsReceiveMessage (receive_params (VNum 1))]).
Proof.
  split; [reflexivity |].
  exact (dequeue_delete_fails world_delete_fails [] (VBool false)
           (VObj [("ReceiptHandle", VNum 123)]) (VNum 123) (VStr "ERR")
           (VStr "some_data") eq_refl eq_refl eq_refl eq_refl eq_refl eq_refl).
Defined.

Lemma getUniqueKey_after_collisions_witness :
  fst (getUniqueKey world_collisions 3 (VStr "prefix") [])
  = Resolved (VStr "prefixsome-guid-z")
  /\ calls is_S3HeadObject
       (snd (getUniqueKey world_collisions 3 (VStr "prefix") [])) = 3.
Proof.
  assert (Hfound : forall k, k < 2 ->
            truthy (s3_headObject world_collisions (k + 0)
                      (VObj [("Key",
                              plus_string (VStr "prefix")
                                (uuid_v1 world_collisions (k + 0)))]))
            = false).
  { intros [| [| k]] Hk; [reflexivity | reflexivity | lia]. }
  destruct (getUniqueKey_after_collisions world_collisions (VStr "prefix")
              2 0 [] Hfound eq_refl eq_refl) as [Hkey [Hprobes _]].
  split; [exact Hkey | exact Hprobes].
Defined.

Lemma getUniqueKey_resolved_was_probed_witness :
  getUniqueKey world_put_ok 1 (VStr "prefix") []
  = (Resolved (VStr "prefixsome-guid"),
     [S3HeadObject (VObj [("Key", VStr "prefixsome-guid")]); UuidV1])
  /\ exists rest,
       [S3HeadObject (VObj [("Key", VStr "prefixsome-guid")]); UuidV1]
       = S3HeadObject (VObj [("Key", VStr "prefixsome-guid")]) :: UuidV1 :: rest.
Proof.
  split; [reflexivity |].
  destruct (getUniqueKey_resolved_was_probed world_put_ok (VStr "prefix") 1
              [] _ _ eq_refl) as [rest [Hlog _]].
  exists rest. exact Hlog.
Defined.

Lemma getUniqueKey_rejected_is_probe_error_witness :
  getUniqueKey world_bad_probe 1 (VStr "prefix") []
  = (Rejected BadError,
     [S3HeadObject (VObj [("Key", VStr "prefixsome-guid")]); UuidV1])
  /\ exists code, get BadError "code" = Normal code /\ code <> VStr "NotFound".
Proof.
  split; [reflexivity |].
  destruct (getUniqueKey_rejected_is_probe_error world_bad_probe
              (VStr "prefix") 1 [] _ _ eq_refl)
    as [rest [key [code [_ [_ [_ [_ [Hcode Hother]]]]]]]].
  exists code. split; assumption.
Defined.

Lemma getUniqueKey_never_settles_witness :
  (forall i params, truthy (s3_headObject world_all_taken i params) = false)
  /\ fst (getUniqueKey world_all_taken 5 (VStr "prefix") []) = Pending
  /\ calls is_S3HeadObject
       (snd (getUniqueKey world_all_taken 5 (VStr "prefix") [])) = 5.
Proof.
  assert (Htaken : forall i params,
            truthy (s3_headObject world_all_taken i params) = false).
  { intros i params. simpl. unfold scripted. destruct i; reflexivity. }
  split; [exact Htaken |].
  exact (getUniqueKey_never_settles world_all_taken (VStr "prefix") 5
           Htaken []).
Defined.

Lemma putAttachment_fails_before_write_witness :
  let probed := [S3HeadObject (VObj [("Key", VStr "prefixsome-guid")]); UuidV1] in
  let logged reason :=
    ConsoleLog [VStr "An error was thrown putting object on S3"; reason] in
  putAttachment world_bad_probe 1 (VStr "prefix") (VStr "attachment") []
  = (Rejected BadError, logged BadError :: probed)
  /\ putAttachment world_unserialisable 1 (VStr "prefix") (VStr "attachment") []
     = (Rejected (TypeError "Converting circular structure to JSON"),
        logged (TypeError "Converting circular structure to JSON") :: probed).
Proof.
  intros probed logged. split.
  - exact (proj1 (putAttachment_fails_before_write world_bad_probe 1
                    (VStr "prefix") (VStr "attachment") [] probed)
             BadError eq_refl).
  - exact (proj1 (proj2 (putAttachment_fails_before_write world_unserialisable
                           1 (VStr "prefix") (VStr "attachment") [] probed))
             (VStr "prefixsome-guid") _ eq_refl eq_refl).
Defined.

Lemma putAttachment_writes_once_witness :
  fst (putAttachment world_put_ok 1 (VStr "prefix") (VStr "attachment") [])
  = Resolved (VStr "prefixsome-guid")
  /\ calls is_S3PutObject
       (snd (putAttachment world_put_ok 1 (VStr "prefix") (VStr "attachment")
               [])) = 1.
Proof.
  split; [reflexivity |].
  destruct (putAttachment_writes_once world_put_ok 1 (VStr "prefix")
              (VStr "attachment") []) as [_ [Hresolved _]].
  exact (Hresolved (VStr "prefixsome-guid") eq_refl).
Defined.

Lemma poll_tick_listener_throws_witness :
  let response := VObj [("Messages", VArr [VStr "m"])] in
  sqs_receiveMessage (world_messages (VArr [VStr "m"])) 0
    (receive_params (VNum 10)) = (VNull, response)
  /\ listeners (late_throwing_emitter (VStr "boom")) "message"
     = [fun _ => Normal VUndefined] ++ (fun _ => Throw (VStr "boom"))
       :: [fun _ => Normal VUndefined]
  /\ poll_tick (world_messages (VArr [VStr "m"]))
       (late_throwing_emitter (VStr "boom")) []
     = (Return VUndefined,
        [Emit "error" (VStr "boom"); Emit "message" response;
         SqsReceiveMessage (receive_params (VNum 10))]).
Proof.
  intros response. split; [reflexivity |]. split; [reflexivity |].
  refine ((poll_tick_listener_throws (world_messages (VArr [VStr "m"]))
           (late_throwing_emitter (VStr "boom")) [] VNull response
           (VArr [VStr "m"]) (VStr "boom") (fun _ => Throw (VStr "boom"))
           [fun _ => Normal VUndefined] [fun _ => Normal VUndefined]
           eq_refl eq_refl eq_refl eq_refl eq_refl _ eq_refl)).
  repeat constructor. exists VUndefined. reflexivity.
Defined.

Lemma poll_chain_unhandled_witness :
  listeners new_EventEmitter "error" = []
  /\ (exists reason,
        fst (poll_chain world_receive_fails new_EventEmitter [])
        = Rejected reason)
  /\ fst (poll_chain world_receive_fails attentive_emitter [])
     = Resolved VUndefined.
Proof.
  split; [reflexivity |].
  destruct (poll_chain_unhandled world_receive_fails new_EventEmitter []
              (VStr "ERR") (VStr "some_data") eq_refl eq_refl)
    as [Hnone _].
  destruct (poll_chain_unhandled world_receive_fails attentive_emitter []
              (VStr "ERR") (VStr "some_data") eq_refl eq_refl)
    as [_ Hsome].
  split; [exact (Hnone eq_refl) |].
  apply Hsome; [discriminate |].
  repeat constructor. exists VUndefined; reflexivity.
Defined.

Lemma poll_tick_null_response_witness :
  sqs_receiveMessage world_null_response 0 (receive_params (VNum 10))
  = (VNull, VNull)
  /\ exists text,
       snd (poll_tick world_null_response attentive_emitter [])
       = [Emit "error" (TypeError text);
          SqsReceiveMessage (receive_params (VNum 10))].
Proof.
  split; [reflexivity |].
  destruct (poll_tick_null_response world_null_response attentive_emitter []
              VNull VNull eq_refl eq_refl (or_introl eq_refl))
    as [text [_ Hlog]].
  exists text. exact Hlog.
Defined.
